(** * CUDA kernel base class: asynchronous compute protocol and staging buffers

    A shallow embedding of
    [onnxruntime/core/providers/cuda/cuda_kernel.h]:
    the class [CudaKernel] (entry points [ComputeAsync] and [Compute], the
    allocation helpers, [Stream]) and its nested template [CudaAsyncBuffer].

    The CUDA runtime, the execution provider and the allocators are
    collaborators of the header, not part of it.  Their decisions (which
    address an allocator hands out, whether a runtime call is accepted) are
    parameters of the development; their effect on memory and on the
    streams is written out below. *)

From Stdlib Require Import NArith String.
From stdpp Require Import base gmap list strings.

Local Open Scope N_scope.

(** ** Scalars of the header *)

Definition cudaStream_t := N.
Definition cudaError_t := N.
Definition cudaSuccess : cudaError_t := 0.

(** Raw addresses ([T*], [void*]); a [unique_ptr] is the address it owns. *)
Definition ptr := N.
Definition nullptr : ptr := 0.

(** [size_t] is 64 bits wide: products wrap around. *)
Definition SIZE_MAX_plus_1 : N := 2 ^ 64.
Definition size_t_mul (a b : N) : N := (a * b) mod SIZE_MAX_plus_1.
Definition size_t_succ (a : N) : N := (a + 1) mod SIZE_MAX_plus_1.

(** [DoneCallback] is a [std::function<void()>] owned by the dispatch
    engine; the header only copies it and passes it on, so a continuation is
    known here by its identity. *)
Definition DoneCallback := N.

(** ** [common::Status] *)

Inductive StatusCategory := ONNXRUNTIME | OtherCategory (c : N).
Inductive StatusCode := FAIL | OtherCode (c : N).

Inductive Status :=
| StatusOK
| StatusError (category : StatusCategory) (code : StatusCode) (msg : string).

Definition IsOK (s : Status) : bool :=
  match s with StatusOK => true | StatusError _ _ _ => false end.

(** [MakeString] streams its arguments into one string;
    [ORT_MAKE_STATUS(category, code, ...)] is the status made of the
    category, the code and that string. *)
Definition MakeString (parts : list string) : string :=
  foldr String.append EmptyString parts.

Definition ORT_MAKE_STATUS (category : StatusCategory) (code : StatusCode)
    (parts : list string) : Status :=
  StatusError category code (MakeString parts).

(** The device-error kind: category ONNXRUNTIME, code FAIL (line 49). *)
Definition is_device_error (s : Status) : bool :=
  match s with
  | StatusError ONNXRUNTIME FAIL _ => true
  | _ => false
  end.

(** ** Exceptions and outcomes of a call

    A call either returns a value or leaves by a C++ exception; nothing in
    the header catches one. *)

Inductive Exception :=
| std_runtime_error (what : string)
| NotImplementedException (what : string)
| OnnxRuntimeException (what : string).

Inductive Outcome (A : Type) :=
| Returned (a : A)
| Thrown (e : Exception).
Arguments Returned {A} a.
Arguments Thrown {A} e.

Definition is_thrown {A} (o : Outcome A) : bool :=
  match o with Thrown _ => true | Returned _ => false end.

(** ** Operator context *)

Record StreamHandle := { handle : N }.
Record OpKernelContext := { GetComputeStream : StreamHandle }.

Section Model.

Variable T : Type.

(** ** Memory and streams

    A region is an array of [T]; a slot that was never written is [None]. *)
Definition Region := list (option T).

(** What can sit in a stream's queue.  [OpLaunch] stands for the kernel
    launches of the concrete operators: it rewrites the contents of device
    regions.  The other two are the operations this header enqueues. *)
Inductive StreamOp :=
| OpLaunch (f : ptr -> Region -> Region)
| OpMemcpyH2D (dst src : ptr) (nbytes : N)
| OpHostCallback (userData : DoneCallback).

Record World := {
  host_mem : gmap ptr Region;
  dev_mem : gmap ptr Region;
  streams : gmap cudaStream_t (list StreamOp);
  last_error : cudaError_t;
  deferred_release : list ptr;
  exec_log : list (cudaStream_t * StreamOp)
}.

Definition set_host_mem (h : gmap ptr Region) (w : World) : World :=
  {| host_mem := h; dev_mem := dev_mem w; streams := streams w;
     last_error := last_error w; deferred_release := deferred_release w;
     exec_log := exec_log w |}.

Definition set_dev_mem (d : gmap ptr Region) (w : World) : World :=
  {| host_mem := host_mem w; dev_mem := d; streams := streams w;
     last_error := last_error w; deferred_release := deferred_release w;
     exec_log := exec_log w |}.

Definition set_streams (s : gmap cudaStream_t (list StreamOp)) (w : World) : World :=
  {| host_mem := host_mem w; dev_mem := dev_mem w; streams := s;
     last_error := last_error w; deferred_release := deferred_release w;
     exec_log := exec_log w |}.

Definition set_last_error (e : cudaError_t) (w : World) : World :=
  {| host_mem := host_mem w; dev_mem := dev_mem w; streams := streams w;
     last_error := e; deferred_release := deferred_release w;
     exec_log := exec_log w |}.

Definition set_deferred_release (l : list ptr) (w : World) : World :=
  {| host_mem := host_mem w; dev_mem := dev_mem w; streams := streams w;
     last_error := last_error w; deferred_release := l;
     exec_log := exec_log w |}.

Definition set_exec_log (l : list (cudaStream_t * StreamOp)) (w : World) : World :=
  {| host_mem := host_mem w; dev_mem := dev_mem w; streams := streams w;
     last_error := last_error w; deferred_release := deferred_release w;
     exec_log := l |}.

(** The operations still queued on a stream, oldest first. *)
Definition pending (s : cudaStream_t) (w : World) : list StreamOp :=
  default [] (streams w !! s).

Definition enqueue (s : cudaStream_t) (op : StreamOp) (w : World) : World :=
  set_streams (<[s := pending s w ++ [op]]> (streams w)) w.

(** ** The monad of host code: world passing with exceptions *)

Definition M (A : Type) := World -> Outcome A * World.

Definition ret {A} (a : A) : M A := fun w => (Returned a, w).

Definition throw {A} (e : Exception) : M A := fun w => (Thrown e, w).

Definition bind {A B} (c : M A) (k : A -> M B) : M B :=
  fun w =>
    match c w with
    | (Returned a, w') => k a w'
    | (Thrown e, w') => (Thrown e, w')
    end.

Definition modify (f : World -> World) : M unit := fun w => (Returned tt, f w).

End Model.

Arguments OpLaunch {T} f.
Arguments OpMemcpyH2D {T} dst src nbytes.
Arguments OpHostCallback {T} userData.
Arguments host_mem {T} w.
Arguments dev_mem {T} w.
Arguments streams {T} w.
Arguments last_error {T} w.
Arguments deferred_release {T} w.
Arguments exec_log {T} w.
Arguments set_host_mem {T} h w.
Arguments set_dev_mem {T} d w.
Arguments set_streams {T} s w.
Arguments set_last_error {T} e w.
Arguments set_deferred_release {T} l w.
Arguments set_exec_log {T} l w.
Arguments pending {T} s w.
Arguments enqueue {T} s op w.
Arguments ret {T A} a w.
Arguments throw {T A} e w.
Arguments bind {T A B} c k w.
Arguments modify {T} f w.

Notation "x <- c ;; k" := (bind c (fun x => k))
  (at level 62, c at next level, right associativity).
Notation "c ;;; k" := (bind c (fun _ => k))
  (at level 62, right associativity).

(** ** The CUDA runtime

    Whether the runtime accepts a call, and the texts it gives for an error
    code, are its own business: they are the fields of [CudaRuntime]. *)

Record CudaRuntime (T : Type) := {
  cudaGetErrorName : cudaError_t -> string;
  cudaGetErrorString : cudaError_t -> string;
  cudaMemcpyAsync_rc : World T -> ptr -> ptr -> N -> cudaStream_t -> cudaError_t;
  cudaStreamAddCallback_rc : World T -> cudaStream_t -> DoneCallback -> cudaError_t;
  CudaCall_what : string -> cudaError_t -> string
}.
Arguments cudaGetErrorName {T} c e.
Arguments cudaGetErrorString {T} c e.
Arguments cudaMemcpyAsync_rc {T} c w dst src nbytes stream.
Arguments cudaStreamAddCallback_rc {T} c w stream userData.
Arguments CudaCall_what {T} c expr e.

(** ** The execution provider and its allocators *)

(** The two arguments of line 66 come from headers that are not among the
    sources; the header only passes them on to [GetAllocator]. *)
Inductive OrtMemType := OrtMemTypeCPUInput | OrtMemTypeCPUOutput | OrtMemTypeDefault.
Definition OrtMemTypeCPU : OrtMemType := OrtMemTypeCPUOutput.
Definition DEFAULT_CPU_ALLOCATOR_DEVICE_ID : N := 0.

(** An allocator decides where a request of [count] elements is placed;
    [nullptr] means it has no memory for it. *)
Definition IAllocator (T : Type) := World T -> N -> ptr.

Record CUDAExecutionProvider (T : Type) := {
  GetAllocator : N -> OrtMemType -> option (IAllocator T);
  scratch_allocator : IAllocator T;
  transient_scratch_allocator : IAllocator T
}.
Arguments GetAllocator {T} c id mem_type.
Arguments scratch_allocator {T} c.
Arguments transient_scratch_allocator {T} c.

(** ** [class CudaKernel]

    [stream_mutex_] has no field here: the [lock_guard] of [ComputeAsync]
    lives until the function is left, so the calls on one instance run one
    after the other, which is what world passing expresses. *)

Record CudaKernel (T : Type) := {
  provider_ : CUDAExecutionProvider T;
  stream_ : cudaStream_t
}.
Arguments provider_ {T} c.
Arguments stream_ {T} c.

(** ** [template <typename T> class CudaAsyncBuffer]

    [op_kernel_] is a borrowed pointer to the kernel; the member functions
    below take the kernel it points to, as it is when they are called. *)

Record CudaAsyncBuffer := {
  gpu_copy_ : ptr;
  cpu_pinned_copy_ : ptr;
  count_ : N
}.

(** ** The operator interface a kernel class implements ([OpKernel]) *)

Record OpKernel (T K : Type) := {
  op_IsAsync : K -> bool;
  op_Compute : K -> OpKernelContext -> M T Status;
  op_ComputeAsync :
    K -> OpKernelContext -> DoneCallback -> World T -> Outcome Status * K * World T
}.
Arguments op_IsAsync {T K} o this.
Arguments op_Compute {T K} o this ctx w.
Arguments op_ComputeAsync {T K} o this ctx done w.

Section Kernel.

Variable T : Type.
Variable rt : CudaRuntime T.

(** The pure virtual [ComputeInternal] of the concrete operator.  It is a
    [const] member function and [stream_] is private to the base class: it
    reads the kernel, and acts on the world only. *)
Variable ComputeInternal : CudaKernel T -> OpKernelContext -> M T Status.

(** *** Runtime calls *)

(** [cudaGetLastError] reports the last error and resets it to
    [cudaSuccess]. *)
Definition cudaGetLastError : M T cudaError_t :=
  fun w => (Returned (last_error w), set_last_error cudaSuccess w).

(** An accepted registration joins the tail of the stream's queue; a refused
    one leaves the queues as they are. *)
Definition cudaStreamAddCallback (stream : cudaStream_t) (userData : DoneCallback)
    : M T cudaError_t :=
  fun w =>
    let rc := cudaStreamAddCallback_rc rt w stream userData in
    if rc =? cudaSuccess
    then (Returned rc, enqueue stream (OpHostCallback userData) w)
    else (Returned rc, w).

Definition cudaMemcpyAsync_HostToDevice (dst src : ptr) (nbytes : N)
    (stream : cudaStream_t) : M T cudaError_t :=
  fun w =>
    let rc := cudaMemcpyAsync_rc rt w dst src nbytes stream in
    if rc =? cudaSuccess
    then (Returned rc, enqueue stream (OpMemcpyH2D dst src nbytes) w)
    else (Returned rc, w).

(** *** Macros of cuda_common.h and common.h *)

(** [CUDA_CALL_THROW(expr)], a macro of cuda_common.h (not among the
    sources): as its name says, it throws when the call does not return
    [cudaSuccess]; the text of the exception is the runtime's business. *)
Definition CUDA_CALL_THROW (expr : string) (call : M T cudaError_t) : M T unit :=
  rc <- call ;;
  if rc =? cudaSuccess then ret tt
  else throw (OnnxRuntimeException (CudaCall_what rt expr rc)).

(** Modelled from the spec: the macro [CUDA_RETURN_IF_ERROR] comes from
    cuda_common.h, which is not among the sources.  Section 4.2 says that
    [CopyToGpu] "returns a device-error outcome if the enqueue fails", and
    section 7 that a device error "carries a vendor error code and
    human-readable message": the enclosing function returns at once with a
    status of the kind built at line 49.  [early] turns that status into the
    function's return value, [rest] is the code after the macro. *)
Definition CUDA_RETURN_IF_ERROR {A} (call : M T cudaError_t)
    (early : Status -> A) (rest : M T A) : M T A :=
  rc <- call ;;
  if rc =? cudaSuccess then rest
  else ret (early (ORT_MAKE_STATUS ONNXRUNTIME FAIL
         ["CUDA error "; cudaGetErrorName rt rc; ":"; cudaGetErrorString rt rc])).

(** Modelled from the spec: the macro [ORT_NOT_IMPLEMENTED] comes from
    core/common/common.h, which is not among the sources.  Section 7 lists
    the unimplemented-operation kind, which "always fails immediately";
    [Compute] has no statement after the macro, so the macro itself leaves
    the function: it raises the unimplemented-operation condition with the
    text made of its arguments. *)
Definition ORT_NOT_IMPLEMENTED {A} (parts : list string) : M T A :=
  throw (NotImplementedException (MakeString parts)).

(** *** Provider services reached through [provider_] *)

(** Modelled from the spec: [IAllocator::MakeUniquePtr] is declared in
    core/framework/allocator.h, not among the sources.  Section 4.2: the
    pre-sized construction "pinned-allocates" [count] elements; the
    allocator either has no memory ([nullptr]) or hands out a region of
    [count] slots that nothing has written yet. *)
Definition MakeUniquePtr (allocator : IAllocator T) (count : N) : M T ptr :=
  fun w =>
    let p := allocator w count in
    if p =? nullptr then (Returned nullptr, w)
    else (Returned p,
          set_host_mem (<[p := replicate (N.to_nat count) None]> (host_mem w)) w).

(** Modelled from the spec: [CUDAExecutionProvider::GetScratchBuffer] is
    defined in cuda_execution_provider.h, not among the sources.  Section
    4.2: it "allocates a device-resident buffer of the same count"; section
    7: a scratch allocation that "returns no memory" is an
    unrecoverable condition, not a recoverable outcome. *)
Definition provider_GetScratchBuffer (allocator : IAllocator T) (count : N) : M T ptr :=
  fun w =>
    let g := allocator w count in
    if g =? nullptr then (Thrown (OnnxRuntimeException "Failed to allocate memory"), w)
    else (Returned g,
          set_dev_mem (<[g := replicate (N.to_nat count) None]> (dev_mem w)) w).

(** Modelled from the spec: [CUDAExecutionProvider::AddDeferredReleaseCPUPtr]
    is not among the sources.  Section 5: the deferred-release pool
    "accepts hand-offs from any kernel instance" and is drained by the
    provider, never by this header. *)
Definition provider_AddDeferredReleaseCPUPtr (p : ptr) : M T unit :=
  modify (fun w => set_deferred_release (deferred_release w ++ [p]) w).

(** What the deleter of an [IAllocatorUniquePtr] does to the region it
    owned; an empty pointer owns nothing. *)
Definition free_host (p : ptr) : M T unit :=
  modify (fun w => if p =? nullptr then w
                   else set_host_mem (delete p (host_mem w)) w).

Definition free_device (p : ptr) : M T unit :=
  modify (fun w => if p =? nullptr then w
                   else set_dev_mem (delete p (dev_mem w)) w).

(** *** Member functions of [CudaKernel] *)

Definition IsAsync (this : CudaKernel T) : bool := true.

Definition Stream (this : CudaKernel T) : cudaStream_t := stream_ this.

Definition set_stream_ (s : cudaStream_t) (this : CudaKernel T) : CudaKernel T :=
  {| provider_ := provider_ this; stream_ := s |}.

Definition AllocateBufferOnCPUPinned (this : CudaKernel T) (count_or_bytes : N)
    : M T ptr :=
  match GetAllocator (provider_ this) DEFAULT_CPU_ALLOCATOR_DEVICE_ID OrtMemTypeCPU with
  | None => ret nullptr
  | Some allocator => MakeUniquePtr allocator count_or_bytes
  end.

Definition GetScratchBuffer (this : CudaKernel T) (count_or_bytes : N) : M T ptr :=
  provider_GetScratchBuffer (scratch_allocator (provider_ this)) count_or_bytes.

Definition GetTransientScratchBuffer (this : CudaKernel T) (count_or_bytes : N)
    : M T ptr :=
  provider_GetScratchBuffer (transient_scratch_allocator (provider_ this)) count_or_bytes.

Definition AddDeferredReleaseCPUPtr (this : CudaKernel T) (p : ptr) : M T unit :=
  provider_AddDeferredReleaseCPUPtr p.

(** Lines 53-55: box the continuation, register it on [Stream()], return
    OK.  The box [p] travels with the registration until the trampoline
    [cudaStreamCallback] runs, so the queued operation carries the boxed
    copy. *)
Definition launch_callback (this : CudaKernel T) (done : DoneCallback) : M T Status :=
  let p := done in
  CUDA_CALL_THROW "cudaStreamAddCallback(Stream(), cudaStreamCallback, p, 0)"
    (cudaStreamAddCallback (Stream this) p) ;;;
  ret StatusOK.

(** Lines 42-55, with [stream_] already set. *)
Definition ComputeAsync_body (this : CudaKernel T) (p_op_kernel_context : OpKernelContext)
    (done : DoneCallback) : M T Status :=
  s <- ComputeInternal this p_op_kernel_context ;;
  if IsOK s then
    err <- cudaGetLastError ;;
    if negb (err =? cudaSuccess) then
      ret (ORT_MAKE_STATUS ONNXRUNTIME FAIL
             ["CUDA error "; cudaGetErrorName rt err; ":"; cudaGetErrorString rt err])
    else launch_callback this done
  else launch_callback this done.

(** Lines 30-56.  The function is [const], [stream_] is [mutable]: the
    kernel as the call leaves it is part of the result, also when the call
    leaves by an exception. *)
Definition ComputeAsync (this : CudaKernel T) (p_op_kernel_context : OpKernelContext)
    (done : DoneCallback) (w : World T) : Outcome Status * CudaKernel T * World T :=
  let this := set_stream_ (handle (GetComputeStream p_op_kernel_context)) this in
  let '(r, w') := ComputeAsync_body this p_op_kernel_context done w in
  (r, this, w').

(** Lines 58-60; [__FUNCTION__] is the function's name. *)
Definition Compute (this : CudaKernel T) (p_op_kernel_context : OpKernelContext)
    : M T Status :=
  ORT_NOT_IMPLEMENTED ["Compute"; " is not implemented"].

(** The class as an implementation of the operator interface. *)
Definition CudaKernel_OpKernel : OpKernel T (CudaKernel T) :=
  {| op_IsAsync := IsAsync;
     op_Compute := Compute;
     op_ComputeAsync := ComputeAsync |}.

End Kernel.

Arguments cudaGetLastError {T} w.
Arguments cudaStreamAddCallback {T} rt stream userData w.
Arguments cudaMemcpyAsync_HostToDevice {T} rt dst src nbytes stream w.
Arguments CUDA_CALL_THROW {T} rt expr call w.
Arguments CUDA_RETURN_IF_ERROR {T} rt {A} call early rest w.
Arguments ORT_NOT_IMPLEMENTED {T A} parts w.
Arguments MakeUniquePtr {T} allocator count w.
Arguments provider_GetScratchBuffer {T} allocator count w.
Arguments provider_AddDeferredReleaseCPUPtr {T} p w.
Arguments free_host {T} p w.
Arguments free_device {T} p w.
Arguments IsAsync {T} this.
Arguments Stream {T} this.
Arguments set_stream_ {T} s this.
Arguments AllocateBufferOnCPUPinned {T} this count_or_bytes w.
Arguments GetScratchBuffer {T} this count_or_bytes w.
Arguments GetTransientScratchBuffer {T} this count_or_bytes w.
Arguments AddDeferredReleaseCPUPtr {T} this p w.
Arguments launch_callback {T} rt this done w.
Arguments ComputeAsync_body {T} rt ComputeInternal this p_op_kernel_context done w.
Arguments ComputeAsync {T} rt ComputeInternal this p_op_kernel_context done w.
Arguments Compute {T} this p_op_kernel_context w.
Arguments CudaKernel_OpKernel {T} rt ComputeInternal.

Section StagingBuffer.

Variable T : Type.
Variable sizeof_T : positive.
Variable rt : CudaRuntime T.

(** [sizeof(T)] as a [size_t]. *)
Definition sizeof : N := N.pos sizeof_T.

(** *** Host memory accesses *)

(** [p[i] = value] on the region that starts at [p]; a store outside a live
    region is not defined by the language and changes nothing here. *)
Definition store_host (p : ptr) (i : N) (value : T) (w : World T) : World T :=
  match host_mem w !! p with
  | Some r => set_host_mem (<[p := <[N.to_nat i := Some value]> r]> (host_mem w)) w
  | None => w
  end.

(** A copy of [nbytes] bytes between arrays of [T] moves the
    [nbytes / sizeof(T)] elements it covers.  The copy stays inside both
    arrays or it is not defined by the language; then nothing is copied. *)
Definition copy_prefix (nbytes : N) (src dst : Region T) : Region T :=
  let n := N.to_nat (nbytes / sizeof) in
  if decide (n <= length src /\ n <= length dst)%nat
  then take n src ++ drop n dst
  else dst.

(** [memcpy(dst, src.data(), nbytes)] from a sequence into a host region. *)
Definition memcpy (dst : ptr) (src : list T) (nbytes : N) : M T unit :=
  modify (fun w =>
    match host_mem w !! dst with
    | Some r => set_host_mem (<[dst := copy_prefix nbytes (Some <$> src) r]> (host_mem w)) w
    | None => w
    end).

(** [gsl::span::size()]. *)
Definition span_size (vec : list T) : N := N.of_nat (length vec).

(** *** Member functions of [CudaAsyncBuffer] *)

Definition set_gpu_copy_ (g : ptr) (b : CudaAsyncBuffer) : CudaAsyncBuffer :=
  {| gpu_copy_ := g; cpu_pinned_copy_ := cpu_pinned_copy_ b; count_ := count_ b |}.

Definition set_cpu_pinned_copy_ (p : ptr) (b : CudaAsyncBuffer) : CudaAsyncBuffer :=
  {| gpu_copy_ := gpu_copy_ b; cpu_pinned_copy_ := p; count_ := count_ b |}.

Definition set_count_ (n : N) (b : CudaAsyncBuffer) : CudaAsyncBuffer :=
  {| gpu_copy_ := gpu_copy_ b; cpu_pinned_copy_ := cpu_pinned_copy_ b; count_ := n |}.

Definition CpuPtr (b : CudaAsyncBuffer) : ptr := cpu_pinned_copy_ b.

Definition GpuPtr (b : CudaAsyncBuffer) : ptr := gpu_copy_ b.

Definition count (b : CudaAsyncBuffer) : N := count_ b.

(** [CpuSpan()]: the [count_] elements at [CpuPtr()], as the host reads
    them. *)
Definition CpuSpan (b : CudaAsyncBuffer) (w : World T) : Region T :=
  take (N.to_nat (count_ b)) (default [] (host_mem w !! CpuPtr b)).

(** Line 101. *)
Definition CudaAsyncBuffer_empty : CudaAsyncBuffer :=
  {| gpu_copy_ := nullptr; cpu_pinned_copy_ := nullptr; count_ := 0 |}.

(** Lines 119-124.  The assignment to [cpu_pinned_copy_] releases what the
    pointer owned before. *)
Definition AllocCpuPtr (op_kernel : CudaKernel T) (b : CudaAsyncBuffer) (count : N)
    : M T CudaAsyncBuffer :=
  p <- AllocateBufferOnCPUPinned op_kernel count ;;
  free_host (cpu_pinned_copy_ b) ;;;
  let b := set_cpu_pinned_copy_ p b in
  if cpu_pinned_copy_ b =? nullptr
  then throw (std_runtime_error "alloc failed")
  else ret (set_count_ count b).

(** Lines 103-105. *)
Definition CudaAsyncBuffer_sized (op_kernel : CudaKernel T) (count : N)
    : M T CudaAsyncBuffer :=
  AllocCpuPtr op_kernel CudaAsyncBuffer_empty count.

(** The loop of lines 110-112 from index [i] on; [p] stays the base of the
    region and [i] is how far the source's [p] has moved.  [fuel] bounds the
    number of iterations. *)
Fixpoint fill_loop (fuel : nat) (p : ptr) (value : T) (i count : N) (w : World T)
    : World T :=
  match fuel with
  | O => w
  | S fuel' =>
      if i =? count then w
      else fill_loop fuel' p value (size_t_succ i) count (store_host p i value w)
  end.

(** Lines 107-113.  The loop leaves after [count] iterations. *)
Definition CudaAsyncBuffer_fill (op_kernel : CudaKernel T) (value : T) (count : N)
    : M T CudaAsyncBuffer :=
  b <- CudaAsyncBuffer_sized op_kernel count ;;
  modify (fill_loop (S (N.to_nat count)) (CpuPtr b) value 0 count) ;;;
  ret b.

(** Lines 115-117. *)
Definition CudaAsyncBuffer_span (op_kernel : CudaKernel T) (vec : list T)
    : M T CudaAsyncBuffer :=
  b <- CudaAsyncBuffer_sized op_kernel (span_size vec) ;;
  memcpy (CpuPtr b) vec (size_t_mul (span_size vec) sizeof) ;;;
  ret b.

(** Lines 126-133.  The buffer as the call leaves it is returned with the
    status. *)
Definition CopyToGpu (op_kernel : CudaKernel T) (b : CudaAsyncBuffer)
    : M T (Status * CudaAsyncBuffer) :=
  if negb (cpu_pinned_copy_ b =? nullptr) then
    g <- GetScratchBuffer op_kernel (count_ b) ;;
    free_device (gpu_copy_ b) ;;;
    let b := set_gpu_copy_ g b in
    CUDA_RETURN_IF_ERROR rt
      (cudaMemcpyAsync_HostToDevice rt (gpu_copy_ b) (cpu_pinned_copy_ b)
         (size_t_mul (count_ b) sizeof) (Stream op_kernel))
      (fun st => (st, b))
      (AddDeferredReleaseCPUPtr op_kernel (cpu_pinned_copy_ b) ;;;
       ret (StatusOK, set_cpu_pinned_copy_ nullptr b))
  else ret (StatusOK, b).

(** The implicit destructor: the members go in reverse order of
    declaration, each [unique_ptr] releasing what it still owns. *)
Definition CudaAsyncBuffer_destroy (b : CudaAsyncBuffer) : M T unit :=
  free_host (cpu_pinned_copy_ b) ;;;
  free_device (gpu_copy_ b).

(** ** The device side of a stream

    Modelled from the spec: the CUDA runtime and the trampoline
    [cudaStreamCallback] are not among the sources.  Glossary: "operations
    enqueued on the same stream execute in issue order"; section 5:
    "completion callbacks on a stream fire after all prior work on that same
    stream"; section 4.1: the callback is invoked once and its storage is
    reclaimed after firing.  Every executed operation is appended to
    [exec_log]. *)

Definition exec_op (s : cudaStream_t) (op : StreamOp T) (w : World T) : World T :=
  let w := set_exec_log (exec_log w ++ [(s, op)]) w in
  match op with
  | OpLaunch f =>
      set_dev_mem (map_imap (fun p r => Some (resize (length r) None (f p r))) (dev_mem w)) w
  | OpMemcpyH2D dst src nbytes =>
      match host_mem w !! src, dev_mem w !! dst with
      | Some hs, Some ds => set_dev_mem (<[dst := copy_prefix nbytes hs ds]> (dev_mem w)) w
      | _, _ => w
      end
  | OpHostCallback done => w
  end.

(** The device takes the oldest operation of the stream and executes it. *)
Definition device_step (s : cudaStream_t) (w : World T) : World T :=
  match pending s w with
  | [] => w
  | op :: q => exec_op s op (set_streams (<[s := q]> (streams w)) w)
  end.

Fixpoint device_run (n : nat) (s : cudaStream_t) (w : World T) : World T :=
  match n with
  | O => w
  | S n' => device_run n' s (device_step s w)
  end.

(** The stream has run dry: everything that was queued on it is done. *)
Definition synchronize (s : cudaStream_t) (w : World T) : World T :=
  device_run (length (pending s w)) s w.

(** The continuations invoked so far, in the order of their invocation. *)
Definition fired (w : World T) : list DoneCallback :=
  omap (fun e => match snd e with OpHostCallback d => Some d | _ => None end)
       (exec_log w).

(** Reading back the first [n] elements of a device buffer. *)
Definition read_device (g : ptr) (n : nat) (w : World T) : Region T :=
  take n (default [] (dev_mem w !! g)).

End StagingBuffer.

Arguments store_host {T} p i value w.
Arguments copy_prefix {T} sizeof_T nbytes src dst.
Arguments memcpy {T} sizeof_T dst src nbytes w.
Arguments span_size {T} vec.
Arguments CpuSpan {T} b w.
Arguments AllocCpuPtr {T} op_kernel b count w.
Arguments CudaAsyncBuffer_sized {T} op_kernel count w.
Arguments fill_loop {T} fuel p value i count w.
Arguments CudaAsyncBuffer_fill {T} op_kernel value count w.
Arguments CudaAsyncBuffer_span {T} sizeof_T op_kernel vec w.
Arguments CopyToGpu {T} sizeof_T rt op_kernel b w.
Arguments CudaAsyncBuffer_destroy {T} b w.
Arguments exec_op {T} sizeof_T s op w.
Arguments device_step {T} sizeof_T s w.
Arguments device_run {T} sizeof_T n s w.
Arguments synchronize {T} sizeof_T s w.
Arguments fired {T} w.
Arguments read_device {T} g n w.

(** ** A concrete kernel, used to run the definitions

    Elements are 4-byte integers.  The kernel's compute routine stages the
    sequence 1, 2, 3, 4 and launches one device operation that sets every
    slot of the staged buffer to 5. *)

Module Demo.

Definition rt : CudaRuntime Z :=
  {| cudaGetErrorName := fun e => if e =? 700 then "cudaErrorIllegalAddress"
                                  else "cudaErrorUnknown";
     cudaGetErrorString := fun e => if e =? 700 then "an illegal memory access was encountered"
                                    else "unknown error";
     cudaMemcpyAsync_rc := fun _ _ _ _ _ => cudaSuccess;
     cudaStreamAddCallback_rc := fun _ _ _ => cudaSuccess;
     CudaCall_what := fun expr _ => String.append "CUDA failure; expr=" expr |}.

(** A runtime that refuses every asynchronous copy with
    [cudaErrorInvalidValue]. *)
Definition rt_refusing_copy : CudaRuntime Z :=
  {| cudaGetErrorName := fun _ => "cudaErrorInvalidValue";
     cudaGetErrorString := fun _ => "invalid argument";
     cudaMemcpyAsync_rc := fun _ _ _ _ _ => 1;
     cudaStreamAddCallback_rc := fun _ _ _ => cudaSuccess;
     CudaCall_what := fun expr _ => String.append "CUDA failure; expr=" expr |}.

Definition provider : CUDAExecutionProvider Z :=
  {| GetAllocator := fun _ _ => Some (fun _ _ => 4096);
     scratch_allocator := fun _ _ => 8192;
     transient_scratch_allocator := fun _ _ => 12288 |}.

(** A provider whose pinned allocator is out of memory. *)
Definition provider_no_memory : CUDAExecutionProvider Z :=
  {| GetAllocator := fun _ _ => Some (fun _ _ => nullptr);
     scratch_allocator := fun _ _ => 8192;
     transient_scratch_allocator := fun _ _ => 12288 |}.

Definition kernel : CudaKernel Z := {| provider_ := provider; stream_ := 3 |}.

Definition kernel_no_memory : CudaKernel Z :=
  {| provider_ := provider_no_memory; stream_ := 3 |}.

Definition ctx : OpKernelContext := {| GetComputeStream := {| handle := 7 |} |}.

Definition done : DoneCallback := 42.

(** Nothing allocated; one launch is still queued on stream 7. *)
Definition world0 : World Z :=
  {| host_mem := ∅; dev_mem := ∅;
     streams := {[ 7 := [OpLaunch (fun _ r => r)] ]};
     last_error := cudaSuccess; deferred_release := []; exec_log := [] |}.

Definition CI_ok : CudaKernel Z -> OpKernelContext -> M Z Status :=
  fun _ _ => ret StatusOK.

(** A compute routine that rejects its inputs. *)
Definition CI_fail : CudaKernel Z -> OpKernelContext -> M Z Status :=
  fun _ _ => ret (StatusError ONNXRUNTIME FAIL "Input shape mismatch").

(** A compute routine whose launch faults on the device: it returns OK and
    leaves error 700 behind. *)
Definition CI_fault : CudaKernel Z -> OpKernelContext -> M Z Status :=
  fun _ _ => modify (set_last_error 700) ;;; ret StatusOK.

(** The routine described in the heading. *)
Definition CI_stage : CudaKernel Z -> OpKernelContext -> M Z Status :=
  fun this _ =>
    b <- CudaAsyncBuffer_span 4 this [1%Z; 2%Z; 3%Z; 4%Z] ;;
    r <- CopyToGpu 4 rt this b ;;
    modify (enqueue (Stream this) (@OpLaunch Z (fun _ r => replicate (length r) (Some 5%Z)))) ;;;
    ret (fst r).

(** A staging buffer that owns the pinned region at 4096 in [world1]. *)
Definition buffer1 : CudaAsyncBuffer :=
  {| gpu_copy_ := nullptr; cpu_pinned_copy_ := 4096; count_ := 2 |}.

Definition world1 : World Z :=
  {| host_mem := {[ 4096 := [Some 8%Z; Some 9%Z] ]}; dev_mem := ∅;
     streams := ∅;
     last_error := cudaSuccess; deferred_release := []; exec_log := [] |}.

(** The kernel once a call has bound it to the stream of [ctx]. *)
Definition bound_kernel : CudaKernel Z := set_stream_ 7 kernel.

(** A full call of the staging routine, and its three results. *)
Definition stage_call : Outcome Status * CudaKernel Z * World Z :=
  ComputeAsync rt CI_stage kernel ctx done world0.

Definition stage_kernel : CudaKernel Z := snd (fst stage_call).

Definition stage_world : World Z := snd stage_call.

(** The sequence 1, 2, 3, 4 staged by hand on the bound kernel, then sent. *)
Definition staged : Outcome CudaAsyncBuffer * World Z :=
  CudaAsyncBuffer_span 4 bound_kernel [1%Z; 2%Z; 3%Z; 4%Z] world0.

Definition staged_buffer : CudaAsyncBuffer :=
  {| gpu_copy_ := nullptr; cpu_pinned_copy_ := 4096; count_ := 4 |}.

Definition sent : Outcome (Status * CudaAsyncBuffer) * World Z :=
  CopyToGpu 4 rt bound_kernel staged_buffer (snd staged).

Definition sent_buffer : CudaAsyncBuffer :=
  {| gpu_copy_ := 8192; cpu_pinned_copy_ := nullptr; count_ := 4 |}.

(** [buffer1] sent from [world1]. *)
Definition sent1 : Outcome (Status * CudaAsyncBuffer) * World Z :=
  CopyToGpu 4 rt kernel buffer1 world1.

Definition sent1_buffer : CudaAsyncBuffer :=
  {| gpu_copy_ := 8192; cpu_pinned_copy_ := nullptr; count_ := 2 |}.

(** [world1] with the scratch region of [buffer1] allocated. *)
Definition world1_scratch : World Z :=
  set_dev_mem {[ 8192 := [None; None] ]} world1.

(** A runtime that refuses every callback registration. *)
Definition rt_refusing_callback : CudaRuntime Z :=
  {| cudaGetErrorName := fun _ => "cudaErrorUnknown";
     cudaGetErrorString := fun _ => "unknown error";
     cudaMemcpyAsync_rc := fun _ _ _ _ _ => cudaSuccess;
     cudaStreamAddCallback_rc := fun _ _ _ => 999;
     CudaCall_what := fun expr _ => String.append "CUDA failure; expr=" expr |}.

(** A runtime that refuses a copy into the device buffer at 8192 and accepts
    every other copy. *)
Definition rt_refusing_8192 : CudaRuntime Z :=
  {| cudaGetErrorName := fun _ => "cudaErrorInvalidValue";
     cudaGetErrorString := fun _ => "invalid argument";
     cudaMemcpyAsync_rc := fun _ dst _ _ _ => if dst =? 8192 then 1 else cudaSuccess;
     cudaStreamAddCallback_rc := fun _ _ _ => cudaSuccess;
     CudaCall_what := fun expr _ => String.append "CUDA failure; expr=" expr |}.

(** A provider whose scratch allocator places a request at 8192 while that
    address is free, and at 16384 otherwise. *)
Definition provider_two_scratch : CUDAExecutionProvider Z :=
  {| GetAllocator := fun _ _ => Some (fun w _ => match host_mem w !! 4096 with
                                                 | None => 4096
                                                 | Some _ => 20480
                                                 end);
     scratch_allocator := fun w _ => match dev_mem w !! 8192 with
                                     | None => 8192
                                     | Some _ => 16384
                                     end;
     transient_scratch_allocator := fun _ _ => 12288 |}.

Definition kernel_two_scratch : CudaKernel Z :=
  {| provider_ := provider_two_scratch; stream_ := 3 |}.

(** A second continuation and the call that follows [stage_call]. *)
Definition done2 : DoneCallback := 43.

Definition stage_call2 : Outcome Status * CudaKernel Z * World Z :=
  ComputeAsync rt CI_stage stage_kernel ctx done2 stage_world.

(** What the second run of the staging routine adds to the queue. *)
Definition stage_ops : list (StreamOp Z) :=
  [OpMemcpyH2D 8192 4096 16;
   OpLaunch (fun _ r => replicate (length r) (Some 5%Z))].

(** A provider without a CPU allocator. *)
Definition kernel_no_allocator : CudaKernel Z :=
  {| provider_ := {| GetAllocator := fun _ _ => None;
                     scratch_allocator := fun _ _ => 8192;
                     transient_scratch_allocator := fun _ _ => 12288 |};
     stream_ := 3 |}.

(** The world the staging routine leaves when it runs on the bound kernel. *)
Definition stage_compute_world : World Z :=
  snd (CI_stage bound_kernel ctx world0).

End Demo.

(** * Properties *)

Lemma append_empty_r (s : string) : String.append s EmptyString = s.
Proof.
  induction s as [|c s IH]; [reflexivity|].
  exact (f_equal (String c) IH).
Qed.

Lemma MakeString_cuda_error (name text : string) :
  MakeString ["CUDA error "; name; ":"; text]
  = String.append "CUDA error " (String.append name (String.append ":" text)).
Proof. unfold MakeString; cbn [foldr]. by rewrite append_empty_r. Qed.

Lemma N_eqb_false (a b : N) : a ≠ b -> (a =? b) = false.
Proof. intros H. by apply N.eqb_neq. Qed.

Section QueueFacts.

Context {T : Type}.
Implicit Types (w : World T) (s : cudaStream_t) (op : StreamOp T).

Lemma pending_enqueue_eq s op w :
  pending s (enqueue s op w) = pending s w ++ [op].
Proof. unfold pending at 1, enqueue; simpl. by rewrite lookup_insert_eq. Qed.

Lemma pending_enqueue_ne s s' op w :
  s ≠ s' -> pending s' (enqueue s op w) = pending s' w.
Proof.
  intros Hne. unfold pending, enqueue; simpl. by rewrite lookup_insert_ne.
Qed.

End QueueFacts.

Section DeviceFacts.

Context {T : Type}.
Variable sizeof_T : positive.
Implicit Types (w : World T) (s : cudaStream_t) (op : StreamOp T).

Lemma streams_exec_op s op w : streams (exec_op sizeof_T s op w) = streams w.
Proof.
  unfold exec_op. destruct op as [f|dst src n|d]; simpl; try reflexivity.
  destruct (host_mem w !! src); [destruct (dev_mem w !! dst)|]; reflexivity.
Qed.

Lemma exec_log_exec_op s op w :
  exec_log (exec_op sizeof_T s op w) = exec_log w ++ [(s, op)].
Proof.
  unfold exec_op. destruct op as [f|dst src n|d]; simpl; try reflexivity.
  destruct (host_mem w !! src); [destruct (dev_mem w !! dst)|]; reflexivity.
Qed.

Lemma host_mem_exec_op s op w : host_mem (exec_op sizeof_T s op w) = host_mem w.
Proof.
  unfold exec_op. destruct op as [f|dst src n|d]; simpl; try reflexivity.
  destruct (host_mem w !! src); [destruct (dev_mem w !! dst)|]; reflexivity.
Qed.

(** One step of the device on a stream whose oldest operation is [op]. *)
Lemma device_step_cons s op q w :
  pending s w = op :: q ->
  pending s (device_step sizeof_T s w) = q
  /\ exec_log (device_step sizeof_T s w) = exec_log w ++ [(s, op)]
  /\ host_mem (device_step sizeof_T s w) = host_mem w.
Proof.
  intros Hp. unfold device_step. rewrite Hp. split; [|split].
  - unfold pending. rewrite streams_exec_op. simpl. by rewrite lookup_insert_eq.
  - by rewrite exec_log_exec_op.
  - by rewrite host_mem_exec_op.
Qed.

(** Running the device for as many steps as the queue is long empties the
    queue, executing its operations oldest first. *)
Lemma device_run_all s w :
  pending s (synchronize sizeof_T s w) = []
  /\ exec_log (synchronize sizeof_T s w) = exec_log w ++ ((fun op => (s, op)) <$> pending s w)
  /\ host_mem (synchronize sizeof_T s w) = host_mem w.
Proof.
  unfold synchronize.
  remember (pending s w) as q eqn:Hq. revert w Hq.
  induction q as [|op q IH]; intros w Hq; simpl.
  - rewrite <- Hq. by rewrite app_nil_r.
  - destruct (device_step_cons s op q w (eq_sym Hq)) as (Hp & Hl & Hh).
    destruct (IH (device_step sizeof_T s w) (eq_sym Hp)) as (Hp' & Hl' & Hh').
    split; [exact Hp'|split].
    + rewrite Hl', Hl. by rewrite <- app_assoc.
    + by rewrite Hh'.
Qed.

End DeviceFacts.

(** ** The asynchronous entry point *)

Section AsyncProtocol.

Context {T : Type}.
Variable sizeof_T : positive.
Variable rt : CudaRuntime T.
Variable ComputeInternal : CudaKernel T -> OpKernelContext -> M T Status.
Implicit Types (w : World T) (this : CudaKernel T) (ctx : OpKernelContext).
Implicit Types (done : DoneCallback) (s : Status).

(** The kernel with [stream_] set from the context (lines 36-37). *)
Local Abbreviation bound ctx this := (set_stream_ (handle (GetComputeStream ctx)) this).

Lemma launch_callback_accepted this done w :
  cudaStreamAddCallback_rc rt w (Stream this) done = cudaSuccess ->
  launch_callback rt this done w
  = (Returned StatusOK, enqueue (Stream this) (OpHostCallback done) w).
Proof.
  intros Hrc. unfold launch_callback, CUDA_CALL_THROW, bind, cudaStreamAddCallback.
  rewrite Hrc. reflexivity.
Qed.

Lemma launch_callback_refused this done w :
  cudaStreamAddCallback_rc rt w (Stream this) done ≠ cudaSuccess ->
  is_thrown (fst (launch_callback rt this done w)) = true
  /\ snd (launch_callback rt this done w) = w.
Proof.
  intros Hrc. unfold launch_callback, CUDA_CALL_THROW, bind, cudaStreamAddCallback.
  rewrite (N_eqb_false _ _ Hrc). simpl. rewrite (N_eqb_false _ _ Hrc). by split.
Qed.

(** Whenever lines 53-55 return, the continuation was enqueued on
    [Stream()], once, and the status is OK. *)
Lemma launch_callback_returned this done w s w' :
  launch_callback rt this done w = (Returned s, w') ->
  s = StatusOK /\ w' = enqueue (Stream this) (OpHostCallback done) w.
Proof.
  destruct (decide (cudaStreamAddCallback_rc rt w (Stream this) done = cudaSuccess))
    as [Hrc|Hrc].
  - rewrite (launch_callback_accepted _ _ _ Hrc). intros [= <- <-]. by split.
  - destruct (launch_callback_refused _ _ _ Hrc) as [Ht _].
    intros Heq. rewrite Heq in Ht. discriminate.
Qed.

(** What [ComputeAsync] does when the compute routine reports a failure and
    the runtime accepts the registration: the status [s] is dropped, the
    continuation is enqueued and the call returns OK. *)
Lemma ComputeAsync_internal_failure this ctx done w s w1 :
  ComputeInternal (bound ctx this) ctx w = (Returned s, w1) ->
  IsOK s = false ->
  cudaStreamAddCallback_rc rt w1 (handle (GetComputeStream ctx)) done = cudaSuccess ->
  ComputeAsync rt ComputeInternal this ctx done w
  = (Returned StatusOK, bound ctx this,
     enqueue (handle (GetComputeStream ctx)) (OpHostCallback done) w1).
Proof.
  intros HCI Hs Hrc. unfold ComputeAsync, ComputeAsync_body, bind.
  rewrite HCI, Hs. by rewrite launch_callback_accepted.
Qed.

(** C2. When the compute routine succeeds and [cudaGetLastError] then
    reports an error, [ComputeAsync] returns a FAIL status whose message
    holds the error's name and text; the world is the one the compute
    routine left, with the error consumed: nothing was enqueued, the call
    does not depend on the continuation, and draining any stream afterwards
    invokes exactly the continuations it would have invoked anyway. *)
Theorem ComputeAsync_device_error this ctx done w s w1 :
  ComputeInternal (bound ctx this) ctx w = (Returned s, w1) ->
  IsOK s = true ->
  last_error w1 ≠ cudaSuccess ->
  let w' := set_last_error cudaSuccess w1 in
  ComputeAsync rt ComputeInternal this ctx done w
  = (Returned (StatusError ONNXRUNTIME FAIL
       (String.append "CUDA error "
          (String.append (cudaGetErrorName rt (last_error w1))
             (String.append ":" (cudaGetErrorString rt (last_error w1)))))),
     bound ctx this, w')
  /\ (forall done', ComputeAsync rt ComputeInternal this ctx done' w
                    = ComputeAsync rt ComputeInternal this ctx done w)
  /\ (forall st, pending st w' = pending st w1)
  /\ exec_log w' = exec_log w1
  /\ (forall st, fired (synchronize sizeof_T st w') = fired (synchronize sizeof_T st w1)).
Proof.
  intros HCI Hs Herr w'.
  assert (Hrun : forall d, ComputeAsync rt ComputeInternal this ctx d w
    = (Returned (StatusError ONNXRUNTIME FAIL
         (String.append "CUDA error "
            (String.append (cudaGetErrorName rt (last_error w1))
               (String.append ":" (cudaGetErrorString rt (last_error w1)))))),
       bound ctx this, w')).
  { intros d. unfold ComputeAsync, ComputeAsync_body, bind.
    rewrite HCI, Hs. unfold cudaGetLastError.
    rewrite (N_eqb_false _ _ Herr). simpl.
    unfold ret, ORT_MAKE_STATUS. by rewrite MakeString_cuda_error. }
  split; [apply Hrun|]. split; [intros d; by rewrite !Hrun|].
  split; [reflexivity|]. split; [reflexivity|].
  intros st.
  destruct (device_run_all sizeof_T st w') as (_ & Hl' & _).
  destruct (device_run_all sizeof_T st w1) as (_ & Hl1 & _).
  unfold fired. rewrite Hl', Hl1. reflexivity.
Qed.

(** Every successful return of [ComputeAsync] went through lines 53-55:
    the compute routine returned, and the continuation was enqueued on the
    stream of the context in the world [w1] that was current then. *)
Lemma ComputeAsync_success_inv this ctx done w s this' w' :
  ComputeAsync rt ComputeInternal this ctx done w = (Returned s, this', w') ->
  IsOK s = true ->
  exists si wc,
    ComputeInternal (bound ctx this) ctx w = (Returned si, wc)
    /\ this' = bound ctx this
    /\ w' = enqueue (handle (GetComputeStream ctx)) (OpHostCallback done)
              (if IsOK si then set_last_error cudaSuccess wc else wc).
Proof.
  intros Hrun Hs.
  unfold ComputeAsync, ComputeAsync_body, bind in Hrun.
  destruct (ComputeInternal (bound ctx this) ctx w) as [[si|e] wc] eqn:HCI;
    [|discriminate].
  exists si, wc. split; [reflexivity|].
  destruct (IsOK si) eqn:Hsi.
  - unfold cudaGetLastError in Hrun.
    destruct (negb (last_error wc =? cudaSuccess)) eqn:Herr.
    + unfold ret, ORT_MAKE_STATUS in Hrun. injection Hrun as <- <- <-. discriminate.
    + destruct (launch_callback rt (bound ctx this) done (set_last_error cudaSuccess wc))
        as [[r|e] w2] eqn:HL; [|discriminate].
      destruct (launch_callback_returned _ _ _ _ _ HL) as [-> ->].
      injection Hrun as <- <- <-. by split.
  - destruct (launch_callback rt (bound ctx this) done wc)
      as [[r|e] w2] eqn:HL; [|discriminate].
    destruct (launch_callback_returned _ _ _ _ _ HL) as [-> ->].
    injection Hrun as <- <- <-. by split.
Qed.

(** C3. When [ComputeAsync] returns success, the world is the one in which
    the registration was made ([w1]: what the compute routine left, the
    last error consumed if it was queried) with the continuation enqueued
    once at the tail of the stream of the call's context, and on no other
    stream.  Draining that stream empties it, executes first everything
    that was queued ahead and then the callback, and so invokes the
    continuation exactly once more than it would have been without the
    call, after everything else. *)
Theorem ComputeAsync_success_callback_once this ctx done w s this' w' :
  ComputeAsync rt ComputeInternal this ctx done w = (Returned s, this', w') ->
  IsOK s = true ->
  let h := handle (GetComputeStream ctx) in
  exists w1,
    (exists si wc, ComputeInternal this' ctx w = (Returned si, wc)
                   /\ w1 = if IsOK si then set_last_error cudaSuccess wc else wc)
    /\ w' = enqueue h (OpHostCallback done) w1
    /\ pending h w' = pending h w1 ++ [OpHostCallback done]
    /\ (forall st, st ≠ h -> pending st w' = pending st w1)
    /\ pending h (synchronize sizeof_T h w') = []
    /\ exec_log (synchronize sizeof_T h w')
       = exec_log w1 ++ ((fun op => (h, op)) <$> pending h w1) ++ [(h, OpHostCallback done)]
    /\ fired (synchronize sizeof_T h w') = fired (synchronize sizeof_T h w1) ++ [done].
Proof.
  intros Hrun Hs. cbv zeta.
  destruct (ComputeAsync_success_inv _ _ _ _ _ _ _ Hrun Hs) as (si & wc & HCI & -> & ->).
  set (h := handle (GetComputeStream ctx)) in *.
  remember (if IsOK si then set_last_error cudaSuccess wc else wc) as w1 eqn:Hw1.
  exists w1. split; [exists si, wc; by split|].
  split; [reflexivity|].
  split; [apply pending_enqueue_eq|].
  split; [intros st Hne; by apply pending_enqueue_ne|].
  destruct (device_run_all sizeof_T h (enqueue h (OpHostCallback done) w1))
    as (Hp & Hl & _).
  split; [exact Hp|].
  assert (Hlog : exec_log (synchronize sizeof_T h (enqueue h (OpHostCallback done) w1))
                 = exec_log w1 ++ ((fun op => (h, op)) <$> pending h w1)
                   ++ [(h, OpHostCallback done)]).
  { rewrite Hl, pending_enqueue_eq, fmap_app. reflexivity. }
  split; [exact Hlog|].
  destruct (device_run_all sizeof_T h w1) as (_ & Hl1 & _).
  unfold fired. rewrite Hlog, Hl1, !omap_app. simpl. by rewrite <- app_assoc.
Qed.

(** C4. For every kernel of the family, whatever its compute routine is,
    the synchronous entry point leaves by the unimplemented-operation
    condition and the world is as it was: the compute routine has not run. *)
Theorem Compute_not_implemented this ctx w :
  op_Compute (CudaKernel_OpKernel rt ComputeInternal) this ctx w
  = (Thrown (NotImplementedException "Compute is not implemented"), w).
Proof. reflexivity. Qed.

End AsyncProtocol.

(** ** Staging buffers: construction *)

Section StagingConstruction.

Context {T : Type}.
Variable sizeof_T : positive.
Implicit Types (w : World T) (this : CudaKernel T) (b : CudaAsyncBuffer).
Implicit Types (p g : ptr) (r : Region T).

Lemma set_host_mem_id w : set_host_mem (host_mem w) w = w.
Proof. by destruct w. Qed.

(** The pinned allocation never raises; it changes the world only when it
    hands out a region, which then has [count] unwritten slots. *)
Lemma AllocateBufferOnCPUPinned_returns this count w :
  exists p, AllocateBufferOnCPUPinned this count w
            = (Returned p,
               if p =? nullptr then w
               else set_host_mem (<[p := replicate (N.to_nat count) None]> (host_mem w)) w).
Proof.
  unfold AllocateBufferOnCPUPinned.
  destruct (GetAllocator (provider_ this) DEFAULT_CPU_ALLOCATOR_DEVICE_ID OrtMemTypeCPU)
    as [a|].
  - unfold MakeUniquePtr. exists (a w count).
    destruct (a w count =? nullptr) eqn:E; [|reflexivity].
    apply N.eqb_eq in E. by rewrite E.
  - exists nullptr. reflexivity.
Qed.

Lemma AllocateBufferOnCPUPinned_inv this count w p w1 :
  AllocateBufferOnCPUPinned this count w = (Returned p, w1) ->
  w1 = (if p =? nullptr then w
        else set_host_mem (<[p := replicate (N.to_nat count) None]> (host_mem w)) w).
Proof.
  destruct (AllocateBufferOnCPUPinned_returns this count w) as [p' Hp'].
  rewrite Hp'. by intros [= <- <-].
Qed.

(** [AllocCpuPtr] on a buffer that owns no host copy yet (as in every
    constructor), when the allocation hands out [p]. *)
Lemma AllocCpuPtr_success this b count w p w1 :
  AllocateBufferOnCPUPinned this count w = (Returned p, w1) ->
  p ≠ nullptr ->
  cpu_pinned_copy_ b = nullptr ->
  AllocCpuPtr this b count w = (Returned (set_count_ count (set_cpu_pinned_copy_ p b)), w1).
Proof.
  intros Ha Hp Hb. unfold AllocCpuPtr, bind. rewrite Ha.
  unfold free_host, modify. rewrite Hb. simpl.
  by rewrite (N_eqb_false _ _ Hp).
Qed.

(** C8. When the pinned allocation returns no memory, [AllocCpuPtr] leaves
    by the exception [std::runtime_error("alloc failed")], and so does every
    constructor that allocates; none of them returns a value, so the failure
    never takes the form of a [Status]. *)
Theorem AllocCpuPtr_no_memory_throws this b count w :
  fst (AllocateBufferOnCPUPinned this count w) = Returned nullptr ->
  fst (AllocCpuPtr this b count w) = Thrown (std_runtime_error "alloc failed")
  /\ CudaAsyncBuffer_sized this count w = (Thrown (std_runtime_error "alloc failed"), w)
  /\ (forall value, CudaAsyncBuffer_fill this value count w
                    = (Thrown (std_runtime_error "alloc failed"), w))
  /\ (forall vec, span_size vec = count ->
                  CudaAsyncBuffer_span sizeof_T this vec w
                  = (Thrown (std_runtime_error "alloc failed"), w))
  /\ (forall b', fst (AllocCpuPtr this b count w) ≠ Returned b').
Proof.
  intros Ha.
  destruct (AllocateBufferOnCPUPinned_returns this count w) as [p Hp].
  rewrite Hp in Ha. simpl in Ha. injection Ha as ->. simpl in Hp.
  assert (Hgen : forall b0, fst (AllocCpuPtr this b0 count w)
                            = Thrown (std_runtime_error "alloc failed")).
  { intros b0. unfold AllocCpuPtr, bind. rewrite Hp. reflexivity. }
  assert (Hsized : CudaAsyncBuffer_sized this count w
                   = (Thrown (std_runtime_error "alloc failed"), w)).
  { unfold CudaAsyncBuffer_sized, AllocCpuPtr, bind. rewrite Hp. reflexivity. }
  split; [apply Hgen|]. split; [exact Hsized|].
  split; [|split].
  - intros value. unfold CudaAsyncBuffer_fill, bind. by rewrite Hsized.
  - intros vec <-. unfold CudaAsyncBuffer_span, bind. by rewrite Hsized.
  - intros b'. by rewrite Hgen.
Qed.

(** The loop of the fill constructor, entered at index [i] on a region of
    [count] slots: it leaves the first [i] slots alone and sets the others
    to [value]; the fuel given is enough for it to leave by its test. *)
Lemma fill_loop_spec value p count fuel : forall (i : N) r w,
  host_mem w !! p = Some r ->
  length r = N.to_nat count ->
  i <= count ->
  count < SIZE_MAX_plus_1 ->
  (N.to_nat (count - i) < fuel)%nat ->
  fill_loop fuel p value i count w
  = set_host_mem
      (<[p := take (N.to_nat i) r ++ replicate (N.to_nat (count - i)) (Some value)]>
         (host_mem w)) w.
Proof.
  induction fuel as [|fuel IH]; intros i r w Hr Hlen Hi Hc Hfuel; [lia|].
  simpl. destruct (i =? count) eqn:E.
  - apply N.eqb_eq in E. subst i. rewrite N.sub_diag. simpl.
    rewrite app_nil_r, <- Hlen, firstn_all.
    by rewrite (insert_id _ _ _ Hr), set_host_mem_id.
  - apply N.eqb_neq in E.
    assert (Hsucc : size_t_succ i = i + 1).
    { unfold size_t_succ. apply N.mod_small. lia. }
    rewrite Hsucc. unfold store_host. rewrite Hr.
    rewrite (IH (i + 1) (<[N.to_nat i := Some value]> r)); simpl.
    + unfold set_host_mem; simpl. f_equal.
      rewrite insert_insert_eq. f_equal. unfold Region in *.
      replace (N.to_nat (i + 1)) with (S (N.to_nat i)) by lia.
      rewrite (take_S_r _ _ (Some value)).
      2:{ apply list_lookup_insert_eq. lia. }
      rewrite take_insert_ge by lia.
      replace (N.to_nat (count - i)) with (S (N.to_nat (count - (i + 1)))) by lia.
      simpl. by rewrite <- app_assoc.
    + apply lookup_insert_eq.
    + rewrite <- Hlen. apply length_insert.
    + lia.
    + exact Hc.
    + lia.
Qed.

(** C5. When the pinned allocation for [count] elements hands out a region
    at [p], the fill constructor returns a buffer whose host copy is at [p]
    and holds [count] slots, each equal to [value]; no stream has received
    an operation and nothing has been executed or handed off. *)
Theorem CudaAsyncBuffer_fill_all_slots this value count w p w1 :
  count < SIZE_MAX_plus_1 ->
  AllocateBufferOnCPUPinned this count w = (Returned p, w1) ->
  p ≠ nullptr ->
  exists b w2,
    CudaAsyncBuffer_fill this value count w = (Returned b, w2)
    /\ CpuPtr b = p /\ count_ b = count /\ GpuPtr b = nullptr
    /\ host_mem w2 !! p = Some (replicate (N.to_nat count) (Some value))
    /\ CpuSpan b w2 = replicate (N.to_nat count) (Some value)
    /\ (forall i, (i < N.to_nat count)%nat -> CpuSpan b w2 !! i = Some (Some value))
    /\ streams w2 = streams w
    /\ exec_log w2 = exec_log w
    /\ deferred_release w2 = deferred_release w.
Proof.
  intros Hc Ha Hp.
  pose proof (AllocateBufferOnCPUPinned_inv _ _ _ _ _ Ha) as Hw1.
  rewrite (N_eqb_false _ _ Hp) in Hw1.
  assert (Hr : host_mem w1 !! p = Some (replicate (N.to_nat count) (@None T))).
  { rewrite Hw1. simpl. apply lookup_insert_eq. }
  eexists _, _. split.
  { unfold CudaAsyncBuffer_fill, CudaAsyncBuffer_sized, bind.
    rewrite (AllocCpuPtr_success this CudaAsyncBuffer_empty _ _ _ _ Ha Hp eq_refl).
    unfold modify, ret. reflexivity. }
  cbn [CpuPtr GpuPtr set_count_ set_cpu_pinned_copy_ cpu_pinned_copy_ count_ gpu_copy_
       CudaAsyncBuffer_empty].
  rewrite (fill_loop_spec value p count _ 0 _ w1 Hr);
    [|by rewrite length_replicate|lia|exact Hc|lia].
  rewrite N.sub_0_r. simpl.
  assert (Hspan : CpuSpan
            (set_count_ count (set_cpu_pinned_copy_ p CudaAsyncBuffer_empty))
            (set_host_mem (<[p:=replicate (N.to_nat count) (Some value)]> (host_mem w1)) w1)
          = replicate (N.to_nat count) (Some value)).
  { unfold CpuSpan, CpuPtr. simpl. rewrite lookup_insert_eq. simpl.
    rewrite <- (length_replicate (N.to_nat count) (Some value)) at 1.
    apply firstn_all. }
  split; [reflexivity|]. split; [reflexivity|]. split; [reflexivity|].
  split; [apply lookup_insert_eq|].
  split; [exact Hspan|].
  split; [intros i Hi; rewrite Hspan; by apply lookup_replicate_2|].
  rewrite Hw1. by repeat split.
Qed.

End StagingConstruction.

(** ** Staging buffers: the transfer *)

Section StagingTransfer.

Context {T : Type}.
Variable sizeof_T : positive.
Variable rt : CudaRuntime T.
Implicit Types (w : World T) (this : CudaKernel T) (b : CudaAsyncBuffer).
Implicit Types (p g : ptr) (r : Region T) (st : Status).

(** The byte count of the asynchronous copy (line 129). *)
Local Abbreviation nbytes_of b := (size_t_mul (count_ b) (sizeof sizeof_T)).

Lemma GetScratchBuffer_inv this n w g wa :
  GetScratchBuffer this n w = (Returned g, wa) ->
  g ≠ nullptr
  /\ wa = set_dev_mem (<[g := replicate (N.to_nat n) None]> (dev_mem w)) w.
Proof.
  unfold GetScratchBuffer, provider_GetScratchBuffer.
  destruct (scratch_allocator (provider_ this) w n =? nullptr) eqn:E;
    [discriminate|].
  intros [= <- <-]. split; [by apply N.eqb_neq|reflexivity].
Qed.

(** Line 127: without a host copy, [CopyToGpu] does nothing. *)
Lemma CopyToGpu_no_host_copy this b w :
  cpu_pinned_copy_ b = nullptr ->
  CopyToGpu sizeof_T rt this b w = (Returned (StatusOK, b), w).
Proof. intros Hb. unfold CopyToGpu. rewrite Hb. reflexivity. Qed.

(** The macro around the asynchronous copy (line 129). *)
Lemma CUDA_RETURN_IF_ERROR_memcpy {A} dst src n s (early : Status -> A) (rest : M T A) w :
  CUDA_RETURN_IF_ERROR rt (cudaMemcpyAsync_HostToDevice rt dst src n s) early rest w
  = if cudaMemcpyAsync_rc rt w dst src n s =? cudaSuccess
    then rest (enqueue s (OpMemcpyH2D dst src n) w)
    else (Returned (early (ORT_MAKE_STATUS ONNXRUNTIME FAIL
                     ["CUDA error "; cudaGetErrorName rt (cudaMemcpyAsync_rc rt w dst src n s);
                      ":"; cudaGetErrorString rt (cudaMemcpyAsync_rc rt w dst src n s)])), w).
Proof.
  unfold CUDA_RETURN_IF_ERROR, bind, cudaMemcpyAsync_HostToDevice.
  generalize (cudaMemcpyAsync_rc rt w dst src n s) as rc. intros rc.
  destruct (rc =? cudaSuccess) eqn:E; rewrite E; reflexivity.
Qed.

(** Lines 128-131 once the scratch buffer is there: the two ways out. *)
Lemma CopyToGpu_run this b w g wa :
  cpu_pinned_copy_ b ≠ nullptr ->
  GetScratchBuffer this (count_ b) w = (Returned g, wa) ->
  let wf := snd (free_device (gpu_copy_ b) wa) in
  let p := cpu_pinned_copy_ b in
  let rc := cudaMemcpyAsync_rc rt wf g p (nbytes_of b) (Stream this) in
  CopyToGpu sizeof_T rt this b w
  = if rc =? cudaSuccess
    then (Returned (StatusOK, set_cpu_pinned_copy_ nullptr (set_gpu_copy_ g b)),
          set_deferred_release (deferred_release wf ++ [p])
            (enqueue (Stream this) (OpMemcpyH2D g p (nbytes_of b)) wf))
    else (Returned (ORT_MAKE_STATUS ONNXRUNTIME FAIL
                      ["CUDA error "; cudaGetErrorName rt rc; ":";
                       cudaGetErrorString rt rc],
                    set_gpu_copy_ g b), wf).
Proof.
  intros Hb Hg. cbv zeta. unfold CopyToGpu.
  rewrite (N_eqb_false _ _ Hb). cbn [negb].
  unfold bind at 1. rewrite Hg.
  unfold bind at 1.
  change (free_device (gpu_copy_ b) wa)
    with (@Returned unit tt, snd (free_device (gpu_copy_ b) wa)).
  cbv beta iota. rewrite CUDA_RETURN_IF_ERROR_memcpy.
  cbn [set_gpu_copy_ gpu_copy_ cpu_pinned_copy_ count_].
  destruct (cudaMemcpyAsync_rc rt _ g _ _ _ =? cudaSuccess); reflexivity.
Qed.

Lemma free_device_frame p w :
  host_mem (snd (free_device p w)) = host_mem w
  /\ streams (snd (free_device p w)) = streams w
  /\ deferred_release (snd (free_device p w)) = deferred_release w
  /\ exec_log (snd (free_device p w)) = exec_log w.
Proof. unfold free_device, modify. simpl. by destruct (p =? nullptr). Qed.

(** C10. When the runtime refuses the asynchronous copy, [CopyToGpu]
    returns a FAIL status of the device-error kind; the buffer still holds
    its host copy, the deferred-release pool, host memory and every queue
    are as before the call, and the buffer's destructor is what releases the
    host region. *)
Theorem CopyToGpu_enqueue_failure this b w g wa :
  cpu_pinned_copy_ b ≠ nullptr ->
  GetScratchBuffer this (count_ b) w = (Returned g, wa) ->
  cudaMemcpyAsync_rc rt (snd (free_device (gpu_copy_ b) wa)) g (cpu_pinned_copy_ b)
    (nbytes_of b) (Stream this) ≠ cudaSuccess ->
  exists st b' w',
    CopyToGpu sizeof_T rt this b w = (Returned (st, b'), w')
    /\ is_device_error st = true /\ IsOK st = false
    /\ cpu_pinned_copy_ b' = cpu_pinned_copy_ b
    /\ deferred_release w' = deferred_release w
    /\ host_mem w' = host_mem w
    /\ (forall s, pending s w' = pending s w)
    /\ host_mem (snd (CudaAsyncBuffer_destroy b' w'))
       = delete (cpu_pinned_copy_ b) (host_mem w).
Proof.
  intros Hb Hg Hrc.
  pose proof (CopyToGpu_run this b w g wa Hb Hg) as Hrun. cbv zeta in Hrun.
  rewrite (N_eqb_false _ _ Hrc) in Hrun.
  destruct (GetScratchBuffer_inv _ _ _ _ _ Hg) as [Hgn ->].
  destruct (free_device_frame (gpu_copy_ b)
              (set_dev_mem (<[g:=replicate (N.to_nat (count_ b)) None]> (dev_mem w)) w))
    as (Hh & Hs & Hd & _).
  eexists _, _, _. split; [exact Hrun|].
  split; [reflexivity|]. split; [reflexivity|]. split; [reflexivity|].
  split; [by rewrite Hd|]. split; [by rewrite Hh|].
  split; [intros s; unfold pending; by rewrite Hs|].
  unfold CudaAsyncBuffer_destroy, bind, free_host, free_device, modify.
  cbn [set_gpu_copy_ gpu_copy_ cpu_pinned_copy_ fst snd].
  rewrite (N_eqb_false _ _ Hb), (N_eqb_false _ _ Hgn).
  destruct (gpu_copy_ b =? nullptr); reflexivity.
Qed.

(** Every successful return of [CopyToGpu] on a buffer with a host copy
    went through lines 128-130. *)
Lemma CopyToGpu_success_inv this b w st b' w' :
  cpu_pinned_copy_ b ≠ nullptr ->
  CopyToGpu sizeof_T rt this b w = (Returned (st, b'), w') ->
  IsOK st = true ->
  exists g wa,
    GetScratchBuffer this (count_ b) w = (Returned g, wa)
    /\ g ≠ nullptr
    /\ wa = set_dev_mem (<[g := replicate (N.to_nat (count_ b)) None]> (dev_mem w)) w
    /\ st = StatusOK
    /\ b' = set_cpu_pinned_copy_ nullptr (set_gpu_copy_ g b)
    /\ w' = set_deferred_release
              (deferred_release (snd (free_device (gpu_copy_ b) wa)) ++ [cpu_pinned_copy_ b])
              (enqueue (Stream this) (OpMemcpyH2D g (cpu_pinned_copy_ b) (nbytes_of b))
                 (snd (free_device (gpu_copy_ b) wa))).
Proof.
  intros Hb Hrun Hst.
  destruct (GetScratchBuffer this (count_ b) w) as [[g|e] wa] eqn:Hg.
  - pose proof (CopyToGpu_run this b w g wa Hb Hg) as Hrun'. cbv zeta in Hrun'.
    rewrite Hrun in Hrun'.
    destruct (GetScratchBuffer_inv _ _ _ _ _ Hg) as [Hgn Hwa].
    destruct (cudaMemcpyAsync_rc rt (snd (free_device (gpu_copy_ b) wa)) g
                (cpu_pinned_copy_ b) (nbytes_of b) (Stream this) =? cudaSuccess).
    + injection Hrun' as -> -> ->. exists g, wa. by repeat split.
    + injection Hrun' as -> _ _. discriminate.
  - unfold CopyToGpu in Hrun. rewrite (N_eqb_false _ _ Hb) in Hrun. simpl in Hrun.
    unfold bind at 1 in Hrun. rewrite Hg in Hrun. discriminate.
Qed.

(** C7. A successful [CopyToGpu] on a buffer with a host copy at [p]
    appends [p] to the deferred-release pool, once; host memory is
    untouched (the region is not freed); the buffer no longer holds a host
    copy, so that a second [CopyToGpu] changes nothing and the destructor
    leaves the region alone. *)
Theorem CopyToGpu_hands_off_once this b w st b' w' :
  cpu_pinned_copy_ b ≠ nullptr ->
  CopyToGpu sizeof_T rt this b w = (Returned (st, b'), w') ->
  IsOK st = true ->
  deferred_release w' = deferred_release w ++ [cpu_pinned_copy_ b]
  /\ host_mem w' = host_mem w
  /\ cpu_pinned_copy_ b' = nullptr
  /\ CopyToGpu sizeof_T rt this b' w' = (Returned (StatusOK, b'), w')
  /\ host_mem (snd (CudaAsyncBuffer_destroy b' w')) = host_mem w'
  /\ deferred_release (snd (CudaAsyncBuffer_destroy b' w')) = deferred_release w'.
Proof.
  intros Hb Hrun Hst.
  destruct (CopyToGpu_success_inv _ _ _ _ _ _ Hb Hrun Hst)
    as (g & wa & Hg & Hgn & Hwa & -> & -> & ->).
  destruct (free_device_frame (gpu_copy_ b) wa) as (Hh & Hs & Hd & _).
  split.
  { unfold set_deferred_release; cbn [deferred_release]. rewrite Hd, Hwa. reflexivity. }
  split.
  { unfold set_deferred_release, enqueue, set_streams; cbn [host_mem].
    rewrite Hh, Hwa. reflexivity. }
  split; [reflexivity|].
  split; [by apply CopyToGpu_no_host_copy|].
  unfold CudaAsyncBuffer_destroy, bind, free_host, free_device, modify.
  cbn [set_cpu_pinned_copy_ set_gpu_copy_ gpu_copy_ cpu_pinned_copy_ fst snd].
  change (nullptr =? nullptr) with true. cbn iota.
  by destruct (g =? nullptr).
Qed.

End StagingTransfer.

(** ** Staging buffers: what reaches the device *)

Section RoundTrip.

Context {T : Type}.
Variable sizeof_T : positive.
Variable rt : CudaRuntime T.
Implicit Types (w : World T) (this : CudaKernel T) (b : CudaAsyncBuffer).
Implicit Types (p g : ptr) (r : Region T) (st : Status) (s : cudaStream_t).

Lemma copy_prefix_length n (src dst : Region T) :
  length (copy_prefix sizeof_T n src dst) = length dst.
Proof.
  unfold copy_prefix. case_decide as H; [|reflexivity].
  rewrite length_app, length_take, length_drop. lia.
Qed.

(** Without wrap-around, a copy of [length l * sizeof(T)] bytes between
    arrays of [length l] elements replaces the whole destination. *)
Lemma copy_prefix_whole (l dst : Region T) :
  length dst = length l ->
  N.of_nat (length l) * sizeof sizeof_T < SIZE_MAX_plus_1 ->
  copy_prefix sizeof_T (size_t_mul (N.of_nat (length l)) (sizeof sizeof_T)) l dst = l.
Proof.
  intros Hlen Hfit. unfold copy_prefix, size_t_mul.
  rewrite (N.mod_small _ _ Hfit), N.div_mul by (unfold sizeof; lia).
  rewrite Nat2N.id. rewrite decide_True by lia.
  rewrite firstn_all, <- Hlen, drop_all. apply app_nil_r.
Qed.

Lemma exec_op_dev_region s (op : StreamOp T) w g r :
  dev_mem w !! g = Some r ->
  exists r', dev_mem (exec_op sizeof_T s op w) !! g = Some r' /\ length r' = length r.
Proof.
  intros Hg. unfold exec_op. destruct op as [f|dst src n|d]; cbn.
  - unfold Region in *. rewrite map_lookup_imap, Hg. cbn.
    eexists; split; [reflexivity|]. apply length_resize.
  - repeat case_match; cbn; try (exists r; split; [exact Hg|reflexivity]).
    destruct (decide (dst = g)) as [->|Hne].
    + rewrite lookup_insert_eq. eexists; split; [reflexivity|].
      rewrite copy_prefix_length.
      match goal with H : dev_mem w !! g = Some ?ds |- _ =>
        rewrite Hg in H; by injection H as -> end.
    + rewrite lookup_insert_ne by done. exists r; split; [exact Hg|reflexivity].
  - exists r; split; [exact Hg|reflexivity].
Qed.

Lemma device_step_dev_region s w g r :
  dev_mem w !! g = Some r ->
  exists r', dev_mem (device_step sizeof_T s w) !! g = Some r' /\ length r' = length r.
Proof.
  intros Hg. unfold device_step. destruct (pending s w) as [|op q]; [by exists r|].
  by apply exec_op_dev_region.
Qed.

(** Executing the operations queued ahead of [rest] keeps host memory, and
    keeps every device region in place with its size. *)
Lemma device_run_prefix s g (q : list (StreamOp T)) : forall rest w r,
  pending s w = q ++ rest ->
  dev_mem w !! g = Some r ->
  pending s (device_run sizeof_T (length q) s w) = rest
  /\ host_mem (device_run sizeof_T (length q) s w) = host_mem w
  /\ exists r', dev_mem (device_run sizeof_T (length q) s w) !! g = Some r'
                /\ length r' = length r.
Proof.
  induction q as [|op q IH]; intros rest w r Hp Hg; simpl.
  - split; [exact Hp|]. split; [reflexivity|]. by exists r.
  - destruct (device_step_cons sizeof_T s op (q ++ rest) w Hp) as (Hp1 & _ & Hh1).
    destruct (device_step_dev_region s w g r Hg) as (r1 & Hg1 & Hl1).
    destruct (IH rest _ r1 Hp1 Hg1) as (Hp2 & Hh2 & r2 & Hg2 & Hl2).
    split; [exact Hp2|]. split; [congruence|].
    exists r2. split; [exact Hg2|congruence].
Qed.

Lemma device_run_snoc n s w :
  device_run sizeof_T (S n) s w = device_step sizeof_T s (device_run sizeof_T n s w).
Proof.
  revert w. induction n as [|n IH]; intros w; [reflexivity|].
  change (device_run sizeof_T (S (S n)) s w)
    with (device_run sizeof_T (S n) s (device_step sizeof_T s w)).
  rewrite IH. reflexivity.
Qed.

(** A constructor that returned went through a successful allocation. *)
Lemma CudaAsyncBuffer_sized_inv this n w b w0 :
  CudaAsyncBuffer_sized this n w = (Returned b, w0) ->
  exists p, p ≠ nullptr
    /\ b = {| gpu_copy_ := nullptr; cpu_pinned_copy_ := p; count_ := n |}
    /\ w0 = set_host_mem (<[p := replicate (N.to_nat n) None]> (host_mem w)) w.
Proof.
  unfold CudaAsyncBuffer_sized. intros Hrun.
  destruct (AllocateBufferOnCPUPinned_returns this n w) as [p Hp].
  destruct (p =? nullptr) eqn:E.
  - apply N.eqb_eq in E. subst p.
    unfold AllocCpuPtr, bind in Hrun. rewrite Hp in Hrun. discriminate.
  - apply N.eqb_neq in E.
    rewrite (AllocCpuPtr_success this CudaAsyncBuffer_empty _ _ _ _ Hp E eq_refl) in Hrun.
    injection Hrun as <- <-. exists p. by repeat split.
Qed.

(** The copy constructor: the host copy holds the sequence. *)
Lemma CudaAsyncBuffer_span_inv this (vec : list T) w b w1 :
  span_size vec * sizeof sizeof_T < SIZE_MAX_plus_1 ->
  CudaAsyncBuffer_span sizeof_T this vec w = (Returned b, w1) ->
  exists p, p ≠ nullptr
    /\ b = {| gpu_copy_ := nullptr; cpu_pinned_copy_ := p; count_ := span_size vec |}
    /\ host_mem w1 !! p = Some (Some <$> vec)
    /\ dev_mem w1 = dev_mem w /\ streams w1 = streams w.
Proof.
  intros Hfit Hrun. unfold CudaAsyncBuffer_span in Hrun. unfold bind at 1 in Hrun.
  destruct (CudaAsyncBuffer_sized this (span_size vec) w) as [[b0|e] w0] eqn:Hs;
    [|discriminate].
  destruct (CudaAsyncBuffer_sized_inv _ _ _ _ _ Hs) as (p & Hp & -> & ->).
  unfold bind, memcpy, modify, ret, CpuPtr in Hrun. cbn in Hrun.
  rewrite lookup_insert_eq in Hrun. injection Hrun as <- <-.
  exists p. split; [exact Hp|]. split; [reflexivity|].
  split; [|by split]. cbn. rewrite lookup_insert_eq. f_equal.
  unfold span_size in *.
  rewrite <- (length_fmap Some vec) in Hfit |- *.
  apply copy_prefix_whole; [|exact Hfit].
  rewrite length_replicate, Nat2N.id. reflexivity.
Qed.

(** The copy at the tail of a stream, seen from the device: after the
    stream has run dry the destination holds the source's elements. *)
Lemma memcpy_reaches_device s g p (l : Region T) w q :
  N.of_nat (length l) * sizeof sizeof_T < SIZE_MAX_plus_1 ->
  host_mem w !! p = Some l ->
  dev_mem w !! g = Some (replicate (length l) None) ->
  pending s w
  = q ++ [OpMemcpyH2D g p (size_t_mul (N.of_nat (length l)) (sizeof sizeof_T))] ->
  read_device g (length l) (synchronize sizeof_T s w) = l.
Proof.
  intros Hfit Hhost Hdev Hpend.
  destruct (device_run_prefix s g q _ w _ Hpend Hdev) as (Hp3 & Hh3 & r3 & Hg3 & Hl3).
  unfold synchronize. rewrite Hpend, length_app. cbn [length].
  rewrite Nat.add_1_r, device_run_snoc.
  set (w3 := device_run sizeof_T (length q) s w) in *.
  rewrite <- Hh3 in Hhost.
  unfold device_step. rewrite Hp3. unfold exec_op, read_device.
  cbn. unfold Region in *. rewrite Hhost, Hg3. cbn. rewrite lookup_insert_eq. cbn.
  rewrite copy_prefix_whole; [apply firstn_all| |exact Hfit].
  by rewrite Hl3, length_replicate.
Qed.

(** C6. A sequence that lies in the address space is staged and sent with
    a successful [CopyToGpu]; once the device has executed everything queued
    on the kernel's stream, the first [length vec] elements of the device
    buffer are the elements of the sequence, in order.  Before the transfer
    the host copy holds them too. *)
Theorem staged_sequence_round_trip this (vec : list T) w b w1 st b' w2 :
  span_size vec * sizeof sizeof_T < SIZE_MAX_plus_1 ->
  CudaAsyncBuffer_span sizeof_T this vec w = (Returned b, w1) ->
  CopyToGpu sizeof_T rt this b w1 = (Returned (st, b'), w2) ->
  IsOK st = true ->
  GpuPtr b' ≠ nullptr
  /\ count b' = span_size vec
  /\ CpuSpan b w1 = Some <$> vec
  /\ pending (Stream this) (synchronize sizeof_T (Stream this) w2) = []
  /\ read_device (GpuPtr b') (length vec) (synchronize sizeof_T (Stream this) w2)
     = Some <$> vec.
Proof.
  intros Hfit Hctor Hcopy Hst.
  destruct (CudaAsyncBuffer_span_inv _ _ _ _ _ Hfit Hctor) as (p & Hp & Hb & Hhost & _ & _).
  assert (Hbp : cpu_pinned_copy_ b ≠ nullptr) by (by rewrite Hb).
  destruct (CopyToGpu_success_inv sizeof_T rt this b _ _ _ _ Hbp Hcopy Hst)
    as (g & wa & _ & Hg & Hwa & _ & Hb' & Hw2).
  clear Hcopy Hctor.
  assert (Hlenv : N.to_nat (span_size vec) = length vec).
  { unfold span_size. apply Nat2N.id. }
  rewrite Hb in Hwa, Hb', Hw2. cbn in Hwa, Hb', Hw2.
  assert (Hgpu : GpuPtr b' = g) by (by rewrite Hb').
  rewrite Hgpu.
  split; [exact Hg|]. split; [by rewrite Hb'|].
  split.
  { rewrite Hb. unfold CpuSpan, CpuPtr. cbn. unfold Region in *. rewrite Hhost. cbn.
    rewrite Hlenv, <- (length_fmap Some vec). apply firstn_all. }
  split; [apply (device_run_all sizeof_T (Stream this) w2)|].
  rewrite <- (length_fmap Some vec).
  apply (memcpy_reaches_device (Stream this) g p (Some <$> vec) w2
           (pending (Stream this) w1)).
  - rewrite length_fmap. exact Hfit.
  - rewrite Hw2, Hwa. exact Hhost.
  - rewrite Hw2, Hwa. cbn. rewrite length_fmap, <- Hlenv. apply lookup_insert_eq.
  - rewrite length_fmap. rewrite Hw2, Hwa.
    unfold pending. cbn. rewrite lookup_insert_eq. reflexivity.
Qed.

End RoundTrip.

(** ** The stream a call works on *)

Section StreamBinding.

Context {T : Type}.
Variable sizeof_T : positive.
Variable rt : CudaRuntime T.
Variable ComputeInternal : CudaKernel T -> OpKernelContext -> M T Status.
Implicit Types (w : World T) (this : CudaKernel T) (ctx : OpKernelContext).
Implicit Types (b : CudaAsyncBuffer).

(** C9. [ComputeAsync] sets [stream_] from the context before anything
    else.  With [h] the handle of the context and [k] the kernel with
    [stream_ = h]: the kernel the call leaves behind is [k]; the value
    cached before has no influence; the compute routine is run on [k] and
    on no other kernel, and the call ends in exactly one of four ways, each
    with the world it leaves: the routine's exception, the device error,
    the callback enqueued on [h] and on no other stream, or the refused
    registration.  On [k], [CopyToGpu] asks the runtime for a copy on [h],
    and an accepted copy is enqueued on [h] and nowhere else. *)
Theorem ComputeAsync_binds_stream this ctx done w r this' w' :
  ComputeAsync rt ComputeInternal this ctx done w = (r, this', w') ->
  let h := handle (GetComputeStream ctx) in
  let k := set_stream_ h this in
  this' = k
  /\ Stream this' = h
  /\ provider_ this' = provider_ this
  /\ (forall s0, ComputeAsync rt ComputeInternal (set_stream_ s0 this) ctx done w
                 = (r, this', w'))
  /\ ((exists e wc,
         ComputeInternal k ctx w = (Thrown e, wc) /\ r = Thrown e /\ w' = wc)
      \/ (exists wc,
            ComputeInternal k ctx w = (Returned StatusOK, wc)
            /\ last_error wc ≠ cudaSuccess
            /\ r = Returned (ORT_MAKE_STATUS ONNXRUNTIME FAIL
                   ["CUDA error "; cudaGetErrorName rt (last_error wc); ":";
                    cudaGetErrorString rt (last_error wc)])
            /\ w' = set_last_error cudaSuccess wc)
      \/ (exists si wc,
            ComputeInternal k ctx w = (Returned si, wc)
            /\ (IsOK si = true -> last_error wc = cudaSuccess)
            /\ cudaStreamAddCallback_rc rt
                 (if IsOK si then set_last_error cudaSuccess wc else wc) h done
               = cudaSuccess
            /\ r = Returned StatusOK
            /\ w' = enqueue h (OpHostCallback done)
                      (if IsOK si then set_last_error cudaSuccess wc else wc)
            /\ pending h w' = pending h wc ++ [OpHostCallback done]
            /\ forall s, s ≠ h -> pending s w' = pending s wc)
      \/ (exists si wc,
            ComputeInternal k ctx w = (Returned si, wc)
            /\ (IsOK si = true -> last_error wc = cudaSuccess)
            /\ cudaStreamAddCallback_rc rt
                 (if IsOK si then set_last_error cudaSuccess wc else wc) h done
               ≠ cudaSuccess
            /\ is_thrown r = true
            /\ w' = (if IsOK si then set_last_error cudaSuccess wc else wc)))
  /\ (forall b w0 g wa,
        cpu_pinned_copy_ b ≠ nullptr ->
        GetScratchBuffer this' (count_ b) w0 = (Returned g, wa) ->
        cudaMemcpyAsync_rc rt (snd (free_device (gpu_copy_ b) wa)) g (cpu_pinned_copy_ b)
          (size_t_mul (count_ b) (sizeof sizeof_T)) h = cudaSuccess ->
        CopyToGpu sizeof_T rt this' b w0
        = (Returned (StatusOK, set_cpu_pinned_copy_ nullptr (set_gpu_copy_ g b)),
           set_deferred_release
             (deferred_release (snd (free_device (gpu_copy_ b) wa)) ++ [cpu_pinned_copy_ b])
             (enqueue h
                (OpMemcpyH2D g (cpu_pinned_copy_ b) (size_t_mul (count_ b) (sizeof sizeof_T)))
                (snd (free_device (gpu_copy_ b) wa)))))
  /\ (forall b w0 st b' w1,
        cpu_pinned_copy_ b ≠ nullptr ->
        CopyToGpu sizeof_T rt this' b w0 = (Returned (st, b'), w1) ->
        IsOK st = true ->
        pending h w1
        = pending h w0
          ++ [OpMemcpyH2D (GpuPtr b') (CpuPtr b) (size_t_mul (count b) (sizeof sizeof_T))]
        /\ forall s, s ≠ h -> pending s w1 = pending s w0).
Proof.
  intros Hrun. cbv zeta.
  assert (Hthis : this' = set_stream_ (handle (GetComputeStream ctx)) this).
  { unfold ComputeAsync in Hrun.
    destruct (ComputeAsync_body rt ComputeInternal
                (set_stream_ (handle (GetComputeStream ctx)) this) ctx done w).
    by injection Hrun as _ <- _. }
  set (h := handle (GetComputeStream ctx)) in *.
  set (k := set_stream_ h this) in *.
  assert (Hsk : Stream this' = h) by (by rewrite Hthis).
  split; [exact Hthis|]. split; [exact Hsk|]. split; [by rewrite Hthis|].
  split; [intros s0; exact Hrun|].
  split; [|split].
  - (* the four ways out *)
    assert (Hpend : forall si (wc : World T) st,
              pending st (if IsOK si then set_last_error cudaSuccess wc else wc)
              = pending st wc) by (intros si wc st; by destruct (IsOK si)).
    assert (Hlaunch : forall si (wc : World T),
              ComputeInternal k ctx w = (Returned si, wc) ->
              (IsOK si = true -> last_error wc = cudaSuccess) ->
              forall o w2,
                launch_callback rt k done
                  (if IsOK si then set_last_error cudaSuccess wc else wc) = (o, w2) ->
                r = o -> w' = w2 ->
                (exists si wc,
                   ComputeInternal k ctx w = (Returned si, wc)
                   /\ (IsOK si = true -> last_error wc = cudaSuccess)
                   /\ cudaStreamAddCallback_rc rt
                        (if IsOK si then set_last_error cudaSuccess wc else wc) h done
                      = cudaSuccess
                   /\ r = Returned StatusOK
                   /\ w' = enqueue h (OpHostCallback done)
                             (if IsOK si then set_last_error cudaSuccess wc else wc)
                   /\ pending h w' = pending h wc ++ [OpHostCallback done]
                   /\ forall s, s ≠ h -> pending s w' = pending s wc)
                \/ (exists si wc,
                      ComputeInternal k ctx w = (Returned si, wc)
                      /\ (IsOK si = true -> last_error wc = cudaSuccess)
                      /\ cudaStreamAddCallback_rc rt
                           (if IsOK si then set_last_error cudaSuccess wc else wc) h done
                         ≠ cudaSuccess
                      /\ is_thrown r = true
                      /\ w' = (if IsOK si then set_last_error cudaSuccess wc else wc))).
    { intros si wc HCI Herr o w2 HL -> ->.
      set (w1 := if IsOK si then set_last_error cudaSuccess wc else wc) in *.
      destruct (decide (cudaStreamAddCallback_rc rt w1 h done = cudaSuccess)) as [Hrc|Hrc].
      - left. exists si, wc.
        rewrite (launch_callback_accepted rt k done w1 Hrc) in HL.
        injection HL as <- <-.
        split; [exact HCI|]. split; [exact Herr|]. split; [exact Hrc|].
        split; [reflexivity|]. split; [reflexivity|].
        split.
        + change (Stream k) with h. rewrite pending_enqueue_eq. subst w1.
          by rewrite Hpend.
        + intros s Hne. change (Stream k) with h.
          rewrite pending_enqueue_ne by done. subst w1. by rewrite Hpend.
      - right. exists si, wc.
        destruct (launch_callback_refused rt k done w1 Hrc) as [Ht Hw].
        rewrite HL in Ht, Hw. cbn [fst snd] in Ht, Hw.
        split; [exact HCI|]. split; [exact Herr|]. split; [exact Hrc|].
        split; [exact Ht|]. by rewrite Hw. }
    unfold ComputeAsync in Hrun. fold h in Hrun. fold k in Hrun.
    unfold ComputeAsync_body, bind in Hrun.
    destruct (ComputeInternal k ctx w) as [[si|e] wc] eqn:HCI.
    + destruct si as [|c cd m]; cbn [IsOK] in Hrun.
      * unfold cudaGetLastError in Hrun.
        destruct (last_error wc =? cudaSuccess) eqn:Herr; cbn [negb] in Hrun.
        -- apply N.eqb_eq in Herr.
           destruct (launch_callback rt k done (set_last_error cudaSuccess wc))
             as [o w2] eqn:HL.
           injection Hrun as <- _ <-.
           right; right.
           apply (Hlaunch StatusOK wc eq_refl (fun _ => Herr) o w2 HL eq_refl eq_refl).
        -- apply N.eqb_neq in Herr. unfold ret in Hrun. injection Hrun as <- _ <-.
           right; left. exists wc. by repeat split.
      * destruct (launch_callback rt k done wc) as [o w2] eqn:HL.
        injection Hrun as <- _ <-.
        right; right.
        apply (Hlaunch (StatusError c cd m) wc eq_refl
                 (fun H : IsOK (StatusError c cd m) = true =>
                    False_ind _ (eq_ind false (fun x => if x then False else True) I true H))
                 o w2 HL eq_refl eq_refl).
    + injection Hrun as <- _ <-. left. exists e, wc. by repeat split.
  - (* an accepted copy is enqueued on h *)
    intros b w0 g wa Hb Hg Hrc.
    pose proof (CopyToGpu_run sizeof_T rt this' b w0 g wa Hb Hg) as Hcopy.
    cbv zeta in Hcopy. rewrite Hsk in Hcopy. rewrite Hrc in Hcopy.
    exact Hcopy.
  - (* every successful CopyToGpu enqueued its copy on h, and only there *)
    intros b w0 st b' w1 Hb Hcopy Hst.
    destruct (CopyToGpu_success_inv sizeof_T rt _ _ _ _ _ _ Hb Hcopy Hst)
      as (g & wa & _ & _ & Hwa & _ & Hb' & Hw1).
    rewrite Hsk in Hw1.
    destruct (free_device_frame (gpu_copy_ b) wa) as (_ & Hstr & _ & _).
    assert (Hgpu : GpuPtr b' = g) by (by rewrite Hb').
    rewrite Hgpu. unfold CpuPtr, count.
    assert (Hq : forall s, pending s (snd (free_device (gpu_copy_ b) wa)) = pending s w0).
    { intros s. unfold pending. rewrite Hstr, Hwa. reflexivity. }
    split.
    + rewrite Hw1.
      change (pending h (set_deferred_release ?l ?x)) with (pending h x).
      by rewrite pending_enqueue_eq, Hq.
    + intros s Hne. rewrite Hw1.
      change (pending s (set_deferred_release ?l ?x)) with (pending s x).
      by rewrite pending_enqueue_ne, Hq.
Qed.

End StreamBinding.

(** ** The definitions at work on the concrete kernel *)

(** C1 (what the code does). The compute routine [Demo.CI_fail] returns a
    FAIL status and leaves the world alone; [ComputeAsync] nevertheless
    returns OK and has enqueued the continuation, which the stream then
    invokes. *)
Theorem ComputeAsync_swallows_compute_failure :
  Demo.CI_fail (set_stream_ 7 Demo.kernel) Demo.ctx Demo.world0
  = (Returned (StatusError ONNXRUNTIME FAIL "Input shape mismatch"), Demo.world0)
  /\ ComputeAsync Demo.rt Demo.CI_fail Demo.kernel Demo.ctx Demo.done Demo.world0
     = (Returned StatusOK, set_stream_ 7 Demo.kernel,
        enqueue 7 (OpHostCallback Demo.done) Demo.world0)
  /\ fired (synchronize 4 7 (enqueue 7 (OpHostCallback Demo.done) Demo.world0))
     = [Demo.done].
Proof.
  split; [reflexivity|]. split; [|reflexivity].
  apply (ComputeAsync_internal_failure Demo.rt Demo.CI_fail Demo.kernel Demo.ctx
           Demo.done Demo.world0
           (StatusError ONNXRUNTIME FAIL "Input shape mismatch") Demo.world0);
    reflexivity.
Qed.

(** C2 on the concrete kernel: the launch of [Demo.CI_fault] has left error
    700 behind. *)
Lemma ComputeAsync_device_error_witness :
  Demo.CI_fault Demo.bound_kernel Demo.ctx Demo.world0
  = (Returned StatusOK, set_last_error 700 Demo.world0)
  /\ IsOK StatusOK = true
  /\ last_error (set_last_error 700 Demo.world0) ≠ cudaSuccess
  /\ ComputeAsync Demo.rt Demo.CI_fault Demo.kernel Demo.ctx Demo.done Demo.world0
     = (Returned (StatusError ONNXRUNTIME FAIL
          "CUDA error cudaErrorIllegalAddress:an illegal memory access was encountered"),
        Demo.bound_kernel, Demo.world0)
  /\ forall st, pending st Demo.world0 = pending st (set_last_error 700 Demo.world0).
Proof.
  assert (H1 : Demo.CI_fault Demo.bound_kernel Demo.ctx Demo.world0
               = (Returned StatusOK, set_last_error 700 Demo.world0)) by reflexivity.
  assert (H3 : last_error (set_last_error 700 Demo.world0) ≠ cudaSuccess)
    by (vm_compute; discriminate).
  pose proof (ComputeAsync_device_error 4 Demo.rt Demo.CI_fault Demo.kernel Demo.ctx
                Demo.done Demo.world0 StatusOK _ H1 eq_refl H3) as H.
  cbv zeta in H. destruct H as (Hrun & _ & Hq & _ & _).
  split; [exact H1|]. split; [reflexivity|]. split; [exact H3|].
  split; [exact Hrun|]. exact Hq.
Defined.

(** C3 on the concrete kernel: the staging routine has queued a copy and a
    launch behind the launch that was waiting; the callback comes last. *)
Lemma ComputeAsync_success_callback_once_witness :
  Demo.stage_call = (Returned StatusOK, Demo.stage_kernel, Demo.stage_world)
  /\ IsOK StatusOK = true
  /\ exists w1,
       Demo.stage_world = enqueue 7 (OpHostCallback Demo.done) w1
       /\ length (pending 7 w1) = 3%nat
       /\ fired (synchronize 4 7 Demo.stage_world)
          = fired (synchronize 4 7 w1) ++ [Demo.done].
Proof.
  assert (H1 : ComputeAsync Demo.rt Demo.CI_stage Demo.kernel Demo.ctx Demo.done Demo.world0
               = (Returned StatusOK, Demo.stage_kernel, Demo.stage_world))
    by (vm_compute; reflexivity).
  pose proof (ComputeAsync_success_callback_once 4 Demo.rt Demo.CI_stage Demo.kernel
                Demo.ctx Demo.done Demo.world0 StatusOK _ _ H1 eq_refl) as H.
  cbv zeta in H. destruct H as (w1 & _ & Hw & Hp & _ & _ & _ & Hf).
  split; [exact H1|]. split; [reflexivity|].
  exists w1. split; [exact Hw|]. split; [|exact Hf].
  assert (Hlen : length (pending 7 Demo.stage_world) = 4%nat) by (vm_compute; reflexivity).
  change (handle (GetComputeStream Demo.ctx)) with 7 in Hp.
  rewrite Hp, length_app in Hlen. simpl in Hlen. lia.
Defined.

(** C5 on the example of the specification: fill value 7, count 3. *)
Lemma CudaAsyncBuffer_fill_all_slots_witness :
  3 < SIZE_MAX_plus_1
  /\ AllocateBufferOnCPUPinned Demo.kernel 3 Demo.world0
     = (Returned 4096,
        set_host_mem {[ 4096 := [None; None; None] ]} Demo.world0)
  /\ 4096 ≠ nullptr
  /\ exists b w2,
       CudaAsyncBuffer_fill Demo.kernel 7%Z 3 Demo.world0 = (Returned b, w2)
       /\ CpuSpan b w2 = [Some 7%Z; Some 7%Z; Some 7%Z].
Proof.
  assert (H1 : 3 < SIZE_MAX_plus_1) by reflexivity.
  assert (H2 : AllocateBufferOnCPUPinned Demo.kernel 3 Demo.world0
               = (Returned 4096,
                  set_host_mem {[ 4096 := [None; None; None] ]} Demo.world0))
    by reflexivity.
  assert (H3 : 4096 ≠ nullptr) by (vm_compute; discriminate).
  destruct (CudaAsyncBuffer_fill_all_slots Demo.kernel 7%Z 3 Demo.world0 4096 _ H1 H2 H3)
    as (b & w2 & Hrun & _ & _ & _ & _ & Hspan & _).
  split; [exact H1|]. split; [exact H2|]. split; [exact H3|].
  exists b, w2. split; [exact Hrun|exact Hspan].
Defined.

(** C6 on the example of the specification: 1, 2, 3, 4 as 4-byte
    integers. *)
Lemma staged_sequence_round_trip_witness :
  span_size [1%Z; 2%Z; 3%Z; 4%Z] * sizeof 4 < SIZE_MAX_plus_1
  /\ Demo.staged = (Returned Demo.staged_buffer, snd Demo.staged)
  /\ Demo.sent = (Returned (StatusOK, Demo.sent_buffer), snd Demo.sent)
  /\ read_device 8192 4 (synchronize 4 7 (snd Demo.sent))
     = [Some 1%Z; Some 2%Z; Some 3%Z; Some 4%Z].
Proof.
  assert (H1 : span_size [1%Z; 2%Z; 3%Z; 4%Z] * sizeof 4 < SIZE_MAX_plus_1) by reflexivity.
  assert (H2 : CudaAsyncBuffer_span 4 Demo.bound_kernel [1%Z; 2%Z; 3%Z; 4%Z] Demo.world0
               = (Returned Demo.staged_buffer, snd Demo.staged))
    by (vm_compute; reflexivity).
  assert (H3 : CopyToGpu 4 Demo.rt Demo.bound_kernel Demo.staged_buffer (snd Demo.staged)
               = (Returned (StatusOK, Demo.sent_buffer), snd Demo.sent))
    by (vm_compute; reflexivity).
  destruct (staged_sequence_round_trip 4 Demo.rt Demo.bound_kernel [1%Z; 2%Z; 3%Z; 4%Z]
              Demo.world0 _ _ _ _ _ H1 H2 H3 eq_refl) as (_ & _ & _ & _ & Hread).
  split; [exact H1|]. split; [exact H2|]. split; [exact H3|]. exact Hread.
Defined.

(** C7 on the concrete buffer. *)
Lemma CopyToGpu_hands_off_once_witness :
  cpu_pinned_copy_ Demo.buffer1 ≠ nullptr
  /\ Demo.sent1 = (Returned (StatusOK, Demo.sent1_buffer), snd Demo.sent1)
  /\ IsOK StatusOK = true
  /\ deferred_release (snd Demo.sent1) = [4096]
  /\ host_mem (snd Demo.sent1) = host_mem Demo.world1.
Proof.
  assert (H1 : cpu_pinned_copy_ Demo.buffer1 ≠ nullptr) by (vm_compute; discriminate).
  assert (H2 : CopyToGpu 4 Demo.rt Demo.kernel Demo.buffer1 Demo.world1
               = (Returned (StatusOK, Demo.sent1_buffer), snd Demo.sent1))
    by (vm_compute; reflexivity).
  destruct (CopyToGpu_hands_off_once 4 Demo.rt Demo.kernel Demo.buffer1 Demo.world1
              _ _ _ H1 H2 eq_refl) as (Hd & Hh & _).
  split; [exact H1|]. split; [exact H2|]. split; [reflexivity|].
  split; [exact Hd|exact Hh].
Defined.

(** C8 on a provider whose pinned allocator has no memory. *)
Lemma AllocCpuPtr_no_memory_throws_witness :
  fst (AllocateBufferOnCPUPinned Demo.kernel_no_memory 3 Demo.world0) = Returned nullptr
  /\ CudaAsyncBuffer_sized Demo.kernel_no_memory 3 Demo.world0
     = (Thrown (std_runtime_error "alloc failed"), Demo.world0).
Proof.
  assert (H1 : fst (AllocateBufferOnCPUPinned Demo.kernel_no_memory 3 Demo.world0)
               = Returned nullptr) by reflexivity.
  destruct (AllocCpuPtr_no_memory_throws 4 Demo.kernel_no_memory CudaAsyncBuffer_empty 3
              Demo.world0 H1) as (_ & Hs & _).
  split; [exact H1|exact Hs].
Defined.

(** C9 on the concrete kernel, whose cached stream was 3 before the call:
    the copy and the launch of the staging routine and the callback are all
    in the queue of stream 7, behind the launch that was waiting there;
    stream 3 has received nothing.  A [CopyToGpu] on the kernel the call
    left puts its copy on stream 7 as well. *)
Lemma ComputeAsync_binds_stream_witness :
  Demo.stage_call = (Returned StatusOK, Demo.stage_kernel, Demo.stage_world)
  /\ Stream Demo.kernel = 3
  /\ Demo.stage_kernel = Demo.bound_kernel
  /\ Demo.CI_stage Demo.bound_kernel Demo.ctx Demo.world0
     = (Returned StatusOK, Demo.stage_compute_world)
  /\ pending 7 Demo.stage_compute_world
     = [OpLaunch (fun _ r => r); OpMemcpyH2D 8192 4096 16;
        OpLaunch (fun _ r => replicate (length r) (Some 5%Z))]
  /\ Demo.stage_world
     = enqueue 7 (OpHostCallback Demo.done)
         (set_last_error cudaSuccess Demo.stage_compute_world)
  /\ pending 7 Demo.stage_world
     = pending 7 Demo.stage_compute_world ++ [OpHostCallback Demo.done]
  /\ pending 3 Demo.stage_world = pending 3 Demo.stage_compute_world
  /\ pending 3 Demo.stage_compute_world = []
  /\ (exists w1,
        CopyToGpu 4 Demo.rt Demo.stage_kernel Demo.buffer1 Demo.world1
        = (Returned (StatusOK, Demo.sent1_buffer), w1)
        /\ pending 7 w1 = [OpMemcpyH2D 8192 4096 8]
        /\ pending 3 w1 = []).
Proof.
  assert (H1 : ComputeAsync Demo.rt Demo.CI_stage Demo.kernel Demo.ctx Demo.done Demo.world0
               = (Returned StatusOK, Demo.stage_kernel, Demo.stage_world))
    by (vm_compute; reflexivity).
  assert (HC : Demo.CI_stage Demo.bound_kernel Demo.ctx Demo.world0
               = (Returned StatusOK, Demo.stage_compute_world))
    by (vm_compute; reflexivity).
  assert (HQ : pending 7 Demo.stage_compute_world
               = [OpLaunch (fun _ r => r); OpMemcpyH2D 8192 4096 16;
                  OpLaunch (fun _ r => replicate (length r) (Some 5%Z))])
    by (vm_compute; reflexivity).
  assert (HQ3 : pending 3 Demo.stage_compute_world = []) by (vm_compute; reflexivity).
  pose proof (ComputeAsync_binds_stream 4 Demo.rt Demo.CI_stage Demo.kernel Demo.ctx
                Demo.done Demo.world0 _ _ _ H1) as H.
  cbv zeta in H. destruct H as (Hk & _ & _ & _ & Hcases & Hcopy & _).
  change (set_stream_ (handle (GetComputeStream Demo.ctx)) Demo.kernel)
    with Demo.bound_kernel in Hk, Hcases.
  change (handle (GetComputeStream Demo.ctx)) with 7 in Hcases, Hcopy.
  split; [exact H1|]. split; [reflexivity|]. split; [exact Hk|].
  split; [exact HC|]. split; [exact HQ|].
  assert (Hcall : Demo.stage_world
                  = enqueue 7 (OpHostCallback Demo.done)
                      (set_last_error cudaSuccess Demo.stage_compute_world)
                  /\ pending 7 Demo.stage_world
                     = pending 7 Demo.stage_compute_world ++ [OpHostCallback Demo.done]
                  /\ pending 3 Demo.stage_world = pending 3 Demo.stage_compute_world).
  { destruct Hcases as [(e & wc & _ & Hr & _)
                       |[(wc & _ & _ & Hr & _)
                        |[(si & wc & HCI & _ & _ & _ & Hw & Hp7 & Hpo)
                         |(si & wc & _ & _ & _ & Hr & _)]]];
      try discriminate Hr.
    rewrite HC in HCI. injection HCI as <- <-.
    split; [exact Hw|]. split; [exact Hp7|].
    apply Hpo. discriminate. }
  destruct Hcall as (Hw & Hp7 & Hp3).
  split; [exact Hw|]. split; [exact Hp7|]. split; [exact Hp3|]. split; [exact HQ3|].
  assert (Hb : cpu_pinned_copy_ Demo.buffer1 ≠ nullptr) by (vm_compute; discriminate).
  assert (Hg : GetScratchBuffer Demo.stage_kernel (count_ Demo.buffer1) Demo.world1
               = (Returned 8192, Demo.world1_scratch)) by reflexivity.
  pose proof (Hcopy Demo.buffer1 Demo.world1 8192 Demo.world1_scratch Hb Hg eq_refl)
    as Hsent.
  eexists. split; [exact Hsent|]. split; reflexivity.
Defined.

(** C10 on a runtime that refuses the copy. *)
Lemma CopyToGpu_enqueue_failure_witness :
  cpu_pinned_copy_ Demo.buffer1 ≠ nullptr
  /\ GetScratchBuffer Demo.kernel (count_ Demo.buffer1) Demo.world1
     = (Returned 8192, Demo.world1_scratch)
  /\ cudaMemcpyAsync_rc Demo.rt_refusing_copy
       (snd (free_device (gpu_copy_ Demo.buffer1) Demo.world1_scratch)) 8192
       (cpu_pinned_copy_ Demo.buffer1) (size_t_mul (count_ Demo.buffer1) (sizeof 4))
       (Stream Demo.kernel) ≠ cudaSuccess
  /\ exists st b' w',
       CopyToGpu 4 Demo.rt_refusing_copy Demo.kernel Demo.buffer1 Demo.world1
       = (Returned (st, b'), w')
       /\ is_device_error st = true
       /\ cpu_pinned_copy_ b' = 4096
       /\ deferred_release w' = [].
Proof.
  assert (H1 : cpu_pinned_copy_ Demo.buffer1 ≠ nullptr) by (vm_compute; discriminate).
  assert (H2 : GetScratchBuffer Demo.kernel (count_ Demo.buffer1) Demo.world1
               = (Returned 8192, Demo.world1_scratch)) by reflexivity.
  assert (H3 : cudaMemcpyAsync_rc Demo.rt_refusing_copy
                 (snd (free_device (gpu_copy_ Demo.buffer1) Demo.world1_scratch)) 8192
                 (cpu_pinned_copy_ Demo.buffer1)
                 (size_t_mul (count_ Demo.buffer1) (sizeof 4))
                 (Stream Demo.kernel) ≠ cudaSuccess) by (vm_compute; discriminate).
  destruct (CopyToGpu_enqueue_failure 4 Demo.rt_refusing_copy Demo.kernel Demo.buffer1
              Demo.world1 8192 Demo.world1_scratch H1 H2 H3)
    as (st & b' & w' & Hrun & Hdev & _ & Hcpu & Hd & _).
  split; [exact H1|]. split; [exact H2|]. split; [exact H3|].
  exists st, b', w'. split; [exact Hrun|]. split; [exact Hdev|].
  split; [exact Hcpu|exact Hd].
Defined.

(** * Further properties of the asynchronous entry point *)

Section AsyncOutcomes.

Context {T : Type}.
Variable sizeof_T : positive.
Variable rt : CudaRuntime T.
Variable ComputeInternal : CudaKernel T -> OpKernelContext -> M T Status.
Implicit Types (w : World T) (this : CudaKernel T) (ctx : OpKernelContext).
Implicit Types (done : DoneCallback) (s : Status).

Local Abbreviation bound ctx this := (set_stream_ (handle (GetComputeStream ctx)) this).

(** The three ways lines 53-55 can end, in one statement. *)
Lemma launch_callback_cases this done w :
  (cudaStreamAddCallback_rc rt w (Stream this) done = cudaSuccess
   /\ launch_callback rt this done w
      = (Returned StatusOK, enqueue (Stream this) (OpHostCallback done) w))
  \/ (cudaStreamAddCallback_rc rt w (Stream this) done ≠ cudaSuccess
      /\ launch_callback rt this done w
         = (Thrown (OnnxRuntimeException
              (CudaCall_what rt "cudaStreamAddCallback(Stream(), cudaStreamCallback, p, 0)"
                 (cudaStreamAddCallback_rc rt w (Stream this) done))), w)).
Proof.
  destruct (decide (cudaStreamAddCallback_rc rt w (Stream this) done = cudaSuccess))
    as [Hrc|Hrc].
  - left. split; [exact Hrc|]. by apply launch_callback_accepted.
  - right. split; [exact Hrc|].
    unfold launch_callback, CUDA_CALL_THROW, bind, cudaStreamAddCallback.
    rewrite (N_eqb_false _ _ Hrc). cbn. rewrite (N_eqb_false _ _ Hrc). reflexivity.
Qed.

(** X1. An exception of the compute routine passes through [ComputeAsync]
    unchanged: the call leaves by the same exception in the world the
    routine left, whatever the continuation is, and the kernel stays bound
    to the stream of the context. *)
Theorem ComputeAsync_compute_exception this ctx done w e wc :
  ComputeInternal (bound ctx this) ctx w = (Thrown e, wc) ->
  ComputeAsync rt ComputeInternal this ctx done w = (Thrown e, bound ctx this, wc)
  /\ forall done', ComputeAsync rt ComputeInternal this ctx done' w
                   = ComputeAsync rt ComputeInternal this ctx done w.
Proof.
  intros HCI.
  assert (H : forall d, ComputeAsync rt ComputeInternal this ctx d w
                        = (Thrown e, bound ctx this, wc)).
  { intros d. unfold ComputeAsync, ComputeAsync_body, bind. by rewrite HCI. }
  split; [apply H|]. intros d. by rewrite !H.
Qed.

(** X2. When the runtime refuses the registration of the callback, the call
    leaves by an [OnnxRuntimeException] and returns no status; the world is
    the one in which the registration was attempted, with no callback in any
    queue. *)
Theorem ComputeAsync_registration_refused this ctx done w si wc :
  ComputeInternal (bound ctx this) ctx w = (Returned si, wc) ->
  (IsOK si = true -> last_error wc = cudaSuccess) ->
  let h := handle (GetComputeStream ctx) in
  let w1 := if IsOK si then set_last_error cudaSuccess wc else wc in
  cudaStreamAddCallback_rc rt w1 h done ≠ cudaSuccess ->
  ComputeAsync rt ComputeInternal this ctx done w
  = (Thrown (OnnxRuntimeException
       (CudaCall_what rt "cudaStreamAddCallback(Stream(), cudaStreamCallback, p, 0)"
          (cudaStreamAddCallback_rc rt w1 h done))),
     bound ctx this, w1)
  /\ forall st, pending st w1 = pending st wc.
Proof.
  intros HCI Herr h w1 Hrc.
  split; [|intros st; subst w1; by destruct (IsOK si)].
  unfold ComputeAsync, ComputeAsync_body, bind. rewrite HCI.
  destruct (launch_callback_cases (bound ctx this) done w1) as [[Hok _]|[_ Hthrow]];
    [contradiction|].
  subst w1. destruct (IsOK si) eqn:Hsi.
  - unfold cudaGetLastError. rewrite (Herr eq_refl). cbn [negb N.eqb cudaSuccess].
    change (negb (cudaSuccess =? cudaSuccess)) with false. cbv iota.
    rewrite Hthrow. reflexivity.
  - rewrite Hthrow. reflexivity.
Qed.

(** X3. The callback is enqueued only by a call that returns OK: for every
    other way the call ends (a failing status or an exception), every queue,
    the log of executed operations and both memories are as the compute
    routine left them. *)
Theorem ComputeAsync_no_callback_unless_ok this ctx done w r this' w' :
  ComputeAsync rt ComputeInternal this ctx done w = (r, this', w') ->
  r ≠ Returned StatusOK ->
  exists ri wc,
    ComputeInternal (bound ctx this) ctx w = (ri, wc)
    /\ (forall st, pending st w' = pending st wc)
    /\ exec_log w' = exec_log wc
    /\ host_mem w' = host_mem wc
    /\ dev_mem w' = dev_mem wc
    /\ deferred_release w' = deferred_release wc.
Proof.
  intros Hrun Hr. unfold ComputeAsync, ComputeAsync_body, bind in Hrun.
  destruct (ComputeInternal (bound ctx this) ctx w) as [[si|e] wc] eqn:HCI.
  - exists (Returned si), wc. split; [reflexivity|].
    destruct (IsOK si) eqn:Hsi.
    + unfold cudaGetLastError in Hrun.
      destruct (negb (last_error wc =? cudaSuccess)).
      * unfold ret in Hrun. injection Hrun as _ _ <-. by repeat split.
      * destruct (launch_callback_cases (bound ctx this) done
                    (set_last_error cudaSuccess wc)) as [[_ H]|[_ H]];
          rewrite H in Hrun; injection Hrun as <- _ <-; [done|by repeat split].
    + destruct (launch_callback_cases (bound ctx this) done wc) as [[_ H]|[_ H]];
        rewrite H in Hrun; injection Hrun as <- _ <-; [done|by repeat split].
  - exists (Thrown e), wc. injection Hrun as _ _ <-. by repeat split.
Qed.

(** X4. The only failing status [ComputeAsync] ever returns is the one of
    the [cudaGetLastError] check: the compute routine had returned OK, the
    runtime held an error, and the status is the FAIL status made of that
    error's name and text. *)
Theorem ComputeAsync_failure_status_is_device_error this ctx done w s this' w' :
  ComputeAsync rt ComputeInternal this ctx done w = (Returned s, this', w') ->
  IsOK s = false ->
  exists wc,
    ComputeInternal (bound ctx this) ctx w = (Returned StatusOK, wc)
    /\ last_error wc ≠ cudaSuccess
    /\ s = ORT_MAKE_STATUS ONNXRUNTIME FAIL
             ["CUDA error "; cudaGetErrorName rt (last_error wc); ":";
              cudaGetErrorString rt (last_error wc)]
    /\ is_device_error s = true
    /\ w' = set_last_error cudaSuccess wc.
Proof.
  intros Hrun Hs. unfold ComputeAsync, ComputeAsync_body, bind in Hrun.
  destruct (ComputeInternal (bound ctx this) ctx w) as [[si|e] wc] eqn:HCI;
    [|discriminate].
  destruct si as [|c k m]; cbn [IsOK] in Hrun.
  - unfold cudaGetLastError in Hrun.
    destruct (last_error wc =? cudaSuccess) eqn:Herr; cbn [negb] in Hrun.
    + destruct (launch_callback_cases (bound ctx this) done
                  (set_last_error cudaSuccess wc)) as [[_ H]|[_ H]];
        rewrite H in Hrun; [|discriminate].
      injection Hrun as <- _ _. discriminate.
    + unfold ret in Hrun. injection Hrun as <- _ <-.
      exists wc. split; [reflexivity|]. split; [by apply N.eqb_neq|].
      by repeat split.
  - destruct (launch_callback_cases (bound ctx this) done wc) as [[_ H]|[_ H]];
      rewrite H in Hrun; [|discriminate].
    injection Hrun as <- _ _. discriminate.
Qed.

(** X5. Two calls in a row on the same stream, both returning OK, where the
    second compute routine only adds operations to the queue of that stream:
    the queue then holds the first callback, the operations of the second
    call and the second callback in this order, and draining the stream
    invokes the first continuation before the second. *)
Theorem ComputeAsync_callbacks_in_call_order this ctx done1 done2 w
    s1 this1 w1 s2 this2 w2 si wc ops :
  ComputeAsync rt ComputeInternal this ctx done1 w = (Returned s1, this1, w1) ->
  IsOK s1 = true ->
  ComputeAsync rt ComputeInternal this1 ctx done2 w1 = (Returned s2, this2, w2) ->
  IsOK s2 = true ->
  let h := handle (GetComputeStream ctx) in
  ComputeInternal this2 ctx w1 = (Returned si, wc) ->
  pending h wc = pending h w1 ++ ops ->
  exists q,
    pending h w1 = q ++ [OpHostCallback done1]
    /\ pending h w2 = q ++ [OpHostCallback done1] ++ ops ++ [OpHostCallback done2]
    /\ exists l1 l2,
         fired (synchronize sizeof_T h w2) = l1 ++ [done1] ++ l2 ++ [done2].
Proof.
  intros Hrun1 Hs1 Hrun2 Hs2. cbv zeta. intros HCI Hops.
  destruct (ComputeAsync_success_inv rt ComputeInternal _ _ _ _ _ _ _ Hrun1 Hs1)
    as (si1 & wc1 & _ & -> & ->).
  destruct (ComputeAsync_success_inv rt ComputeInternal _ _ _ _ _ _ _ Hrun2 Hs2)
    as (si2 & wc2 & HCI2 & Hthis2 & ->).
  subst this2.
  assert (E : (Returned si, wc) = (Returned si2, wc2))
    by exact (eq_trans (eq_sym HCI) HCI2).
  injection E as <- <-. clear HCI HCI2.
  set (h := handle (GetComputeStream ctx)) in *.
  set (wa := if IsOK si1 then set_last_error cudaSuccess wc1 else wc1) in *.
  set (wb := if IsOK si then set_last_error cudaSuccess wc else wc).
  assert (Hwb : pending h wb = pending h wc) by (subst wb; by destruct (IsOK si)).
  exists (pending h wa).
  assert (Hq1 : pending h (enqueue h (OpHostCallback done1) wa)
                = pending h wa ++ [OpHostCallback done1]) by apply pending_enqueue_eq.
  assert (Hq2 : pending h (enqueue h (OpHostCallback done2) wb)
                = pending h wa ++ [OpHostCallback done1] ++ ops ++ [OpHostCallback done2]).
  { rewrite pending_enqueue_eq, Hwb, Hops, Hq1. by rewrite <- !app_assoc. }
  split; [exact Hq1|]. split; [exact Hq2|].
  destruct (device_run_all sizeof_T h (enqueue h (OpHostCallback done2) wb))
    as (_ & Hl & _).
  unfold fired. rewrite Hl, Hq2.
  set (F := omap (fun e : cudaStream_t * StreamOp T =>
                    match snd e with OpHostCallback d => Some d | _ => None end)).
  exists (F (exec_log (enqueue h (OpHostCallback done2) wb))
          ++ F ((fun op => (h, op)) <$> pending h wa)),
         (F ((fun op => (h, op)) <$> ops)).
  subst F. rewrite !fmap_app, !omap_app. cbn. by rewrite <- !app_assoc.
Qed.

End AsyncOutcomes.

(** * Further properties of staging buffers *)

Section StagingLifecycle.

Context {T : Type}.
Variable sizeof_T : positive.
Variable rt : CudaRuntime T.
Implicit Types (w : World T) (this : CudaKernel T) (b : CudaAsyncBuffer).
Implicit Types (p g : ptr) (r : Region T) (st : Status).

Local Abbreviation nbytes_of b := (size_t_mul (count_ b) (sizeof sizeof_T)).

(** A fill constructor that returned: the buffer and the world it left. *)
Lemma CudaAsyncBuffer_fill_inv this (value : T) n w b w1 :
  n < SIZE_MAX_plus_1 ->
  CudaAsyncBuffer_fill this value n w = (Returned b, w1) ->
  exists p, p ≠ nullptr
    /\ b = {| gpu_copy_ := nullptr; cpu_pinned_copy_ := p; count_ := n |}
    /\ w1 = set_host_mem (<[p := replicate (N.to_nat n) (Some value)]> (host_mem w)) w.
Proof.
  intros Hn Hrun. unfold CudaAsyncBuffer_fill in Hrun. unfold bind at 1 in Hrun.
  destruct (CudaAsyncBuffer_sized this n w) as [[b0|e] w0] eqn:Hs; [|discriminate].
  destruct (CudaAsyncBuffer_sized_inv _ _ _ _ _ Hs) as (p & Hp & -> & ->).
  assert (Hfill : fill_loop (S (N.to_nat n)) p value 0 n
            (set_host_mem (<[p := replicate (N.to_nat n) None]> (host_mem w)) w)
          = set_host_mem (<[p := replicate (N.to_nat n) (Some value)]> (host_mem w)) w).
  { rewrite (fill_loop_spec value p n _ 0 (replicate (N.to_nat n) None)).
    - rewrite N.sub_0_r. cbn [N.to_nat take app host_mem set_host_mem].
      rewrite insert_insert_eq. reflexivity.
    - cbn. apply lookup_insert_eq.
    - apply length_replicate.
    - lia.
    - exact Hn.
    - lia. }
  unfold bind, modify, ret, CpuPtr in Hrun. cbn [cpu_pinned_copy_] in Hrun.
  rewrite Hfill in Hrun. injection Hrun as <- <-.
  exists p. by repeat split.
Qed.

(** Every failing return of [CopyToGpu] on a buffer with a host copy is the
    early return of line 129. *)
Lemma CopyToGpu_failure_inv this b w st b' w' :
  cpu_pinned_copy_ b ≠ nullptr ->
  CopyToGpu sizeof_T rt this b w = (Returned (st, b'), w') ->
  IsOK st = false ->
  exists g wa,
    GetScratchBuffer this (count_ b) w = (Returned g, wa)
    /\ g ≠ nullptr
    /\ wa = set_dev_mem (<[g := replicate (N.to_nat (count_ b)) None]> (dev_mem w)) w
    /\ is_device_error st = true
    /\ b' = set_gpu_copy_ g b
    /\ w' = snd (free_device (gpu_copy_ b) wa).
Proof.
  intros Hb Hrun Hst.
  destruct (GetScratchBuffer this (count_ b) w) as [[g|e] wa] eqn:Hg.
  - pose proof (CopyToGpu_run sizeof_T rt this b w g wa Hb Hg) as Hrun'.
    cbv zeta in Hrun'. rewrite Hrun in Hrun'.
    destruct (GetScratchBuffer_inv _ _ _ _ _ Hg) as [Hgn Hwa].
    destruct (cudaMemcpyAsync_rc rt (snd (free_device (gpu_copy_ b) wa)) g
                (cpu_pinned_copy_ b) (nbytes_of b) (Stream this) =? cudaSuccess).
    + injection Hrun' as -> _ _. discriminate.
    + injection Hrun' as -> -> ->. exists g, wa. by repeat split.
  - unfold CopyToGpu in Hrun. rewrite (N_eqb_false _ _ Hb) in Hrun. simpl in Hrun.
    unfold bind at 1 in Hrun. rewrite Hg in Hrun. discriminate.
Qed.

(** X6. A buffer that was filled and is destroyed without having been sent
    gives its pinned region back at once: if the region's address was free
    before the construction, construction followed by destruction leaves the
    world exactly as it was, and nothing reached the deferred-release
    pool. *)
Theorem CudaAsyncBuffer_fill_then_destroy this (value : T) n w b w1 :
  n < SIZE_MAX_plus_1 ->
  CudaAsyncBuffer_fill this value n w = (Returned b, w1) ->
  host_mem w !! CpuPtr b = None ->
  CudaAsyncBuffer_destroy b w1 = (Returned tt, w)
  /\ deferred_release w1 = deferred_release w.
Proof.
  intros Hn Hrun Hfree.
  destruct (CudaAsyncBuffer_fill_inv _ _ _ _ _ _ Hn Hrun) as (p & Hp & -> & ->).
  cbn [CpuPtr cpu_pinned_copy_] in Hfree.
  split; [|reflexivity].
  unfold CudaAsyncBuffer_destroy, bind, free_host, free_device, modify.
  cbn [gpu_copy_ cpu_pinned_copy_]. rewrite (N_eqb_false _ _ Hp).
  change (nullptr =? nullptr) with true. cbv iota.
  unfold set_host_mem at 1. cbn [host_mem dev_mem streams last_error deferred_release
                                  exec_log set_host_mem].
  rewrite (delete_insert_id _ _ _ Hfree). by destruct w.
Qed.

(** X7. After a successful first [CopyToGpu] the accessors answer: [CpuPtr]
    null, [count] as before, [GpuPtr] a device region of [count] slots; the
    call itself has executed no stream operation and left the runtime's last
    error alone. *)
Theorem CopyToGpu_success_state this b w st b' w' :
  cpu_pinned_copy_ b ≠ nullptr ->
  gpu_copy_ b = nullptr ->
  CopyToGpu sizeof_T rt this b w = (Returned (st, b'), w') ->
  IsOK st = true ->
  CpuPtr b' = nullptr
  /\ count b' = count b
  /\ GpuPtr b' ≠ nullptr
  /\ (exists r, dev_mem w' !! GpuPtr b' = Some r /\ length r = N.to_nat (count b))
  /\ exec_log w' = exec_log w
  /\ last_error w' = last_error w.
Proof.
  intros Hb Hgpu Hrun Hst.
  destruct (CopyToGpu_success_inv sizeof_T rt _ _ _ _ _ _ Hb Hrun Hst)
    as (g & wa & _ & Hg & -> & _ & -> & ->).
  rewrite Hgpu. unfold free_device, modify.
  change (nullptr =? nullptr) with true.
  cbn [snd CpuPtr GpuPtr count set_cpu_pinned_copy_ set_gpu_copy_ gpu_copy_
       cpu_pinned_copy_ count_].
  split; [reflexivity|]. split; [reflexivity|]. split; [exact Hg|].
  split; [|by split].
  eexists. split; [cbn; apply lookup_insert_eq|]. apply length_replicate.
Qed.

(** X8. A [CopyToGpu] that failed can be repeated.  When the second call
    succeeds, the host region has been handed to the pool exactly once, the
    stream has received exactly one copy, and the scratch buffer of the
    failed attempt has been released. *)
Theorem CopyToGpu_retry_after_failure this b w st1 b1 w1 st2 b2 w2 :
  cpu_pinned_copy_ b ≠ nullptr ->
  CopyToGpu sizeof_T rt this b w = (Returned (st1, b1), w1) ->
  IsOK st1 = false ->
  CopyToGpu sizeof_T rt this b1 w1 = (Returned (st2, b2), w2) ->
  IsOK st2 = true ->
  deferred_release w2 = deferred_release w ++ [cpu_pinned_copy_ b]
  /\ host_mem w2 = host_mem w
  /\ pending (Stream this) w2
     = pending (Stream this) w
       ++ [OpMemcpyH2D (GpuPtr b2) (cpu_pinned_copy_ b) (nbytes_of b)]
  /\ GpuPtr b1 ≠ nullptr
  /\ dev_mem w2 !! GpuPtr b1 = None
  /\ CpuPtr b2 = nullptr.
Proof.
  intros Hb Hrun1 Hst1 Hrun2 Hst2.
  destruct (CopyToGpu_failure_inv _ _ _ _ _ _ Hb Hrun1 Hst1)
    as (g1 & wa1 & _ & Hg1 & Hwa1 & _ & Hb1 & Hw1).
  assert (Hb1p : cpu_pinned_copy_ b1 ≠ nullptr) by (by rewrite Hb1).
  destruct (CopyToGpu_success_inv sizeof_T rt _ _ _ _ _ _ Hb1p Hrun2 Hst2)
    as (g2 & wa2 & _ & Hg2 & Hwa2 & _ & Hb2 & Hw2).
  destruct (free_device_frame (gpu_copy_ b) wa1) as (Hh1 & Hs1 & Hd1 & _).
  rewrite <- Hw1 in Hh1, Hs1, Hd1. rewrite Hwa1 in Hh1, Hs1, Hd1.
  cbn [host_mem streams deferred_release set_dev_mem] in Hh1, Hs1, Hd1.
  assert (Hgb1 : gpu_copy_ b1 = g1) by (by rewrite Hb1).
  assert (Hcb1 : cpu_pinned_copy_ b1 = cpu_pinned_copy_ b) by (by rewrite Hb1).
  assert (Hnb1 : count_ b1 = count_ b) by (by rewrite Hb1).
  rewrite Hgb1, Hcb1, Hnb1 in Hw2.
  unfold free_device, modify in Hw2. rewrite (N_eqb_false _ _ Hg1) in Hw2.
  cbn [snd] in Hw2. rewrite Hwa2 in Hw2.
  assert (Hgb2 : GpuPtr b2 = g2) by (by rewrite Hb2).
  rewrite Hw2, Hgb2. unfold GpuPtr, CpuPtr. rewrite Hgb1, Hb2.
  split; [cbn; by rewrite Hd1|]. split; [cbn; by rewrite Hh1|].
  split.
  { change (pending (Stream this) (set_deferred_release ?l ?x))
      with (pending (Stream this) x).
    rewrite pending_enqueue_eq. f_equal.
    unfold pending. cbn [streams set_dev_mem]. by rewrite Hs1. }
  split; [exact Hg1|]. split; [cbn; apply lookup_delete_eq|reflexivity].
Qed.

(** X9. [AllocCpuPtr] on a buffer that still owns a host copy releases that
    region at once and installs the new one: the old address is free again,
    the new region has [count] unwritten slots, the device pointer is kept
    and nothing is handed to the deferred-release pool. *)
Theorem AllocCpuPtr_releases_previous this b n w b' w' :
  cpu_pinned_copy_ b ≠ nullptr ->
  AllocCpuPtr this b n w = (Returned b', w') ->
  CpuPtr b' ≠ cpu_pinned_copy_ b ->
  CpuPtr b' ≠ nullptr
  /\ host_mem w' !! cpu_pinned_copy_ b = None
  /\ host_mem w' !! CpuPtr b' = Some (replicate (N.to_nat n) None)
  /\ count b' = n
  /\ GpuPtr b' = GpuPtr b
  /\ deferred_release w' = deferred_release w.
Proof.
  intros Hold Hrun Hne.
  destruct (AllocateBufferOnCPUPinned_returns this n w) as [p Hp].
  unfold AllocCpuPtr, bind in Hrun. rewrite Hp in Hrun.
  unfold free_host, modify in Hrun. rewrite (N_eqb_false _ _ Hold) in Hrun.
  cbn [set_cpu_pinned_copy_ cpu_pinned_copy_] in Hrun.
  destruct (p =? nullptr) eqn:E; [discriminate|].
  apply N.eqb_neq in E. injection Hrun as <- <-.
  cbn [CpuPtr GpuPtr count set_count_ set_cpu_pinned_copy_ cpu_pinned_copy_
       gpu_copy_ count_] in *.
  split; [exact E|]. split; [cbn; apply lookup_delete_eq|].
  split; [cbn; rewrite lookup_delete_ne by done; apply lookup_insert_eq|].
  by repeat split.
Qed.

(** X10. Staging anew into a buffer that has been sent leaves the region in
    flight alone: after a successful [CopyToGpu], an [AllocCpuPtr] that puts
    the new host copy elsewhere changes neither the handed-off region nor
    its entry in the deferred-release pool. *)
Theorem AllocCpuPtr_after_send_keeps_region this b w st b' w' n b'' w'' :
  cpu_pinned_copy_ b ≠ nullptr ->
  CopyToGpu sizeof_T rt this b w = (Returned (st, b'), w') ->
  IsOK st = true ->
  AllocCpuPtr this b' n w' = (Returned b'', w'') ->
  CpuPtr b'' ≠ cpu_pinned_copy_ b ->
  host_mem w'' !! cpu_pinned_copy_ b = host_mem w !! cpu_pinned_copy_ b
  /\ deferred_release w'' = deferred_release w ++ [cpu_pinned_copy_ b]
  /\ GpuPtr b'' = GpuPtr b'.
Proof.
  intros Hb Hrun Hst Halloc Hne.
  destruct (CopyToGpu_success_inv sizeof_T rt _ _ _ _ _ _ Hb Hrun Hst)
    as (g & wa & _ & Hg & Hwa & _ & Hb' & Hw').
  destruct (free_device_frame (gpu_copy_ b) wa) as (Hh & _ & Hd & _).
  assert (Hhost : host_mem w' = host_mem w).
  { rewrite Hw'. unfold set_deferred_release, enqueue, set_streams; cbn [host_mem].
    rewrite Hh, Hwa. reflexivity. }
  assert (Hdef : deferred_release w' = deferred_release w ++ [cpu_pinned_copy_ b]).
  { rewrite Hw'. unfold set_deferred_release; cbn [deferred_release].
    rewrite Hd, Hwa. reflexivity. }
  assert (Hnull : cpu_pinned_copy_ b' = nullptr) by (by rewrite Hb').
  destruct (AllocateBufferOnCPUPinned_returns this n w') as [p Hp].
  unfold AllocCpuPtr, bind in Halloc. rewrite Hp in Halloc.
  unfold free_host, modify in Halloc. rewrite Hnull in Halloc.
  change (nullptr =? nullptr) with true in Halloc.
  cbn [set_cpu_pinned_copy_ cpu_pinned_copy_] in Halloc.
  destruct (p =? nullptr) eqn:E; [discriminate|].
  injection Halloc as <- <-.
  cbn [CpuPtr GpuPtr set_count_ set_cpu_pinned_copy_ cpu_pinned_copy_ gpu_copy_] in *.
  split; [cbn; rewrite lookup_insert_ne by done; by rewrite Hhost|].
  split; [exact Hdef|reflexivity].
Qed.

(** X11. With a provider that has no CPU allocator, the pinned allocation
    returns null without touching the world, and the three allocating
    constructors leave by [std::runtime_error("alloc failed")]. *)
Theorem no_cpu_allocator_constructors_throw this w :
  GetAllocator (provider_ this) DEFAULT_CPU_ALLOCATOR_DEVICE_ID OrtMemTypeCPU = None ->
  (forall n, AllocateBufferOnCPUPinned this n w = (Returned nullptr, w))
  /\ (forall n, CudaAsyncBuffer_sized this n w
                = (Thrown (std_runtime_error "alloc failed"), w))
  /\ (forall (value : T) n, CudaAsyncBuffer_fill this value n w
                            = (Thrown (std_runtime_error "alloc failed"), w))
  /\ (forall vec : list T, CudaAsyncBuffer_span sizeof_T this vec w
                           = (Thrown (std_runtime_error "alloc failed"), w)).
Proof.
  intros Hnone.
  assert (Ha : forall n, AllocateBufferOnCPUPinned this n w = (Returned nullptr, w)).
  { intros n. unfold AllocateBufferOnCPUPinned. by rewrite Hnone. }
  assert (Hs : forall n, CudaAsyncBuffer_sized this n w
                         = (Thrown (std_runtime_error "alloc failed"), w)).
  { intros n. unfold CudaAsyncBuffer_sized, AllocCpuPtr, bind. by rewrite Ha. }
  split; [apply Ha|]. split; [exact Hs|]. split.
  - intros value n. unfold CudaAsyncBuffer_fill, bind. by rewrite Hs.
  - intros vec. unfold CudaAsyncBuffer_span, bind. by rewrite Hs.
Qed.

End StagingLifecycle.

(** ** The further properties on the concrete kernel *)

(** X1: the staging routine on a provider without pinned memory. *)
Lemma ComputeAsync_compute_exception_witness :
  Demo.CI_stage (set_stream_ 7 Demo.kernel_no_memory) Demo.ctx Demo.world0
  = (Thrown (std_runtime_error "alloc failed"), Demo.world0)
  /\ ComputeAsync Demo.rt Demo.CI_stage Demo.kernel_no_memory Demo.ctx Demo.done Demo.world0
     = (Thrown (std_runtime_error "alloc failed"),
        set_stream_ 7 Demo.kernel_no_memory, Demo.world0).
Proof.
  assert (H1 : Demo.CI_stage (set_stream_ 7 Demo.kernel_no_memory) Demo.ctx Demo.world0
               = (Thrown (std_runtime_error "alloc failed"), Demo.world0))
    by reflexivity.
  split; [exact H1|].
  exact (proj1 (ComputeAsync_compute_exception Demo.rt Demo.CI_stage Demo.kernel_no_memory
                  Demo.ctx Demo.done Demo.world0 _ _ H1)).
Defined.

(** X2: a runtime that refuses the registration. *)
Lemma ComputeAsync_registration_refused_witness :
  Demo.CI_ok Demo.bound_kernel Demo.ctx Demo.world0 = (Returned StatusOK, Demo.world0)
  /\ cudaStreamAddCallback_rc Demo.rt_refusing_callback
       (set_last_error cudaSuccess Demo.world0) 7 Demo.done ≠ cudaSuccess
  /\ is_thrown (fst (fst (ComputeAsync Demo.rt_refusing_callback Demo.CI_ok Demo.kernel
                            Demo.ctx Demo.done Demo.world0))) = true
  /\ pending 7 (snd (ComputeAsync Demo.rt_refusing_callback Demo.CI_ok Demo.kernel
                       Demo.ctx Demo.done Demo.world0))
     = pending 7 Demo.world0.
Proof.
  assert (H1 : Demo.CI_ok Demo.bound_kernel Demo.ctx Demo.world0
               = (Returned StatusOK, Demo.world0)) by reflexivity.
  assert (H3 : cudaStreamAddCallback_rc Demo.rt_refusing_callback
                 (set_last_error cudaSuccess Demo.world0) 7 Demo.done ≠ cudaSuccess)
    by (vm_compute; discriminate).
  pose proof (ComputeAsync_registration_refused Demo.rt_refusing_callback Demo.CI_ok
                Demo.kernel Demo.ctx Demo.done Demo.world0 StatusOK Demo.world0
                H1 (fun _ => eq_refl)) as H.
  cbv zeta in H. destruct (H H3) as [Hrun Hq].
  split; [exact H1|]. split; [exact H3|].
  rewrite Hrun. split; [reflexivity|]. exact (Hq 7).
Defined.

(** X3: the faulting launch of [Demo.CI_fault]. *)
Lemma ComputeAsync_no_callback_unless_ok_witness :
  ComputeAsync Demo.rt Demo.CI_fault Demo.kernel Demo.ctx Demo.done Demo.world0
  = (Returned (StatusError ONNXRUNTIME FAIL
       "CUDA error cudaErrorIllegalAddress:an illegal memory access was encountered"),
     Demo.bound_kernel, Demo.world0)
  /\ exists ri wc,
       Demo.CI_fault Demo.bound_kernel Demo.ctx Demo.world0 = (ri, wc)
       /\ forall st, pending st Demo.world0 = pending st wc.
Proof.
  assert (H1 : ComputeAsync Demo.rt Demo.CI_fault Demo.kernel Demo.ctx Demo.done Demo.world0
               = (Returned (StatusError ONNXRUNTIME FAIL
                    "CUDA error cudaErrorIllegalAddress:an illegal memory access was encountered"),
                  Demo.bound_kernel, Demo.world0)) by reflexivity.
  destruct (ComputeAsync_no_callback_unless_ok Demo.rt Demo.CI_fault Demo.kernel Demo.ctx
              Demo.done Demo.world0 _ _ _ H1 ltac:(discriminate))
    as (ri & wc & HCI & Hq & _).
  split; [exact H1|]. exists ri, wc. split; [exact HCI|exact Hq].
Defined.

(** X4: the same call, read from the status it returns. *)
Lemma ComputeAsync_failure_status_is_device_error_witness :
  ComputeAsync Demo.rt Demo.CI_fault Demo.kernel Demo.ctx Demo.done Demo.world0
  = (Returned (StatusError ONNXRUNTIME FAIL
       "CUDA error cudaErrorIllegalAddress:an illegal memory access was encountered"),
     Demo.bound_kernel, Demo.world0)
  /\ exists wc,
       Demo.CI_fault Demo.bound_kernel Demo.ctx Demo.world0 = (Returned StatusOK, wc)
       /\ last_error wc ≠ cudaSuccess.
Proof.
  assert (H1 : ComputeAsync Demo.rt Demo.CI_fault Demo.kernel Demo.ctx Demo.done Demo.world0
               = (Returned (StatusError ONNXRUNTIME FAIL
                    "CUDA error cudaErrorIllegalAddress:an illegal memory access was encountered"),
                  Demo.bound_kernel, Demo.world0)) by reflexivity.
  destruct (ComputeAsync_failure_status_is_device_error Demo.rt Demo.CI_fault Demo.kernel
              Demo.ctx Demo.done Demo.world0 _ _ _ H1 eq_refl)
    as (wc & HCI & Herr & _).
  split; [exact H1|]. exists wc. split; [exact HCI|exact Herr].
Defined.

(** X5: the staging routine called twice on stream 7. *)
Lemma ComputeAsync_callbacks_in_call_order_witness :
  Demo.stage_call = (Returned StatusOK, Demo.stage_kernel, Demo.stage_world)
  /\ Demo.stage_call2 = (Returned StatusOK, snd (fst Demo.stage_call2), snd Demo.stage_call2)
  /\ pending 7 (snd (Demo.CI_stage Demo.stage_kernel Demo.ctx Demo.stage_world))
     = pending 7 Demo.stage_world ++ Demo.stage_ops
  /\ exists l1 l2,
       fired (synchronize 4 7 (snd Demo.stage_call2))
       = l1 ++ [Demo.done] ++ l2 ++ [Demo.done2].
Proof.
  assert (H1 : ComputeAsync Demo.rt Demo.CI_stage Demo.kernel Demo.ctx Demo.done Demo.world0
               = (Returned StatusOK, Demo.stage_kernel, Demo.stage_world))
    by (vm_compute; reflexivity).
  assert (H2 : ComputeAsync Demo.rt Demo.CI_stage Demo.stage_kernel Demo.ctx Demo.done2
                 Demo.stage_world
               = (Returned StatusOK, snd (fst Demo.stage_call2), snd Demo.stage_call2))
    by (vm_compute; reflexivity).
  assert (H3 : Demo.CI_stage (snd (fst Demo.stage_call2)) Demo.ctx Demo.stage_world
               = (Returned StatusOK,
                  snd (Demo.CI_stage Demo.stage_kernel Demo.ctx Demo.stage_world)))
    by (vm_compute; reflexivity).
  assert (H4 : pending 7 (snd (Demo.CI_stage Demo.stage_kernel Demo.ctx Demo.stage_world))
               = pending 7 Demo.stage_world ++ Demo.stage_ops)
    by (vm_compute; reflexivity).
  pose proof (ComputeAsync_callbacks_in_call_order 4 Demo.rt Demo.CI_stage Demo.kernel
                Demo.ctx Demo.done Demo.done2 Demo.world0 _ _ _ _ _ _ StatusOK
                (snd (Demo.CI_stage Demo.stage_kernel Demo.ctx Demo.stage_world))
                Demo.stage_ops H1 eq_refl H2 eq_refl) as H.
  cbv zeta in H. destruct (H H3 H4) as (q & _ & _ & l1 & l2 & Hf).
  split; [exact H1|]. split; [exact H2|]. split; [exact H4|].
  exists l1, l2. exact Hf.
Defined.

(** X6: fill value 7, count 3, then the destructor. *)
Lemma CudaAsyncBuffer_fill_then_destroy_witness :
  3 < SIZE_MAX_plus_1
  /\ CudaAsyncBuffer_fill Demo.kernel 7%Z 3 Demo.world0
     = (Returned {| gpu_copy_ := nullptr; cpu_pinned_copy_ := 4096; count_ := 3 |},
        snd (CudaAsyncBuffer_fill Demo.kernel 7%Z 3 Demo.world0))
  /\ host_mem Demo.world0 !! 4096 = None
  /\ CudaAsyncBuffer_destroy
       {| gpu_copy_ := nullptr; cpu_pinned_copy_ := 4096; count_ := 3 |}
       (snd (CudaAsyncBuffer_fill Demo.kernel 7%Z 3 Demo.world0))
     = (Returned tt, Demo.world0).
Proof.
  assert (H1 : 3 < SIZE_MAX_plus_1) by reflexivity.
  assert (H2 : CudaAsyncBuffer_fill Demo.kernel 7%Z 3 Demo.world0
               = (Returned {| gpu_copy_ := nullptr; cpu_pinned_copy_ := 4096; count_ := 3 |},
                  snd (CudaAsyncBuffer_fill Demo.kernel 7%Z 3 Demo.world0)))
    by (vm_compute; reflexivity).
  assert (H3 : host_mem Demo.world0 !! 4096 = None) by reflexivity.
  split; [exact H1|]. split; [exact H2|]. split; [exact H3|].
  exact (proj1 (CudaAsyncBuffer_fill_then_destroy Demo.kernel 7%Z 3 Demo.world0 _ _
                  H1 H2 H3)).
Defined.

(** X7: [Demo.buffer1] sent. *)
Lemma CopyToGpu_success_state_witness :
  cpu_pinned_copy_ Demo.buffer1 ≠ nullptr
  /\ gpu_copy_ Demo.buffer1 = nullptr
  /\ Demo.sent1 = (Returned (StatusOK, Demo.sent1_buffer), snd Demo.sent1)
  /\ CpuPtr Demo.sent1_buffer = nullptr
  /\ count Demo.sent1_buffer = 2
  /\ exec_log (snd Demo.sent1) = [].
Proof.
  assert (H1 : cpu_pinned_copy_ Demo.buffer1 ≠ nullptr) by (vm_compute; discriminate).
  assert (H3 : CopyToGpu 4 Demo.rt Demo.kernel Demo.buffer1 Demo.world1
               = (Returned (StatusOK, Demo.sent1_buffer), snd Demo.sent1))
    by (vm_compute; reflexivity).
  destruct (CopyToGpu_success_state 4 Demo.rt Demo.kernel Demo.buffer1 Demo.world1
              _ _ _ H1 eq_refl H3 eq_refl) as (Hc & Hn & _ & _ & Hl & _).
  split; [exact H1|]. split; [reflexivity|]. split; [exact H3|].
  split; [exact Hc|]. split; [exact Hn|exact Hl].
Defined.

(** X8: the copy into 8192 is refused, the one into 16384 accepted. *)
Lemma CopyToGpu_retry_after_failure_witness :
  cpu_pinned_copy_ Demo.buffer1 ≠ nullptr
  /\ CopyToGpu 4 Demo.rt_refusing_8192 Demo.kernel_two_scratch Demo.buffer1 Demo.world1
     = (Returned (StatusError ONNXRUNTIME FAIL "CUDA error cudaErrorInvalidValue:invalid argument",
                  {| gpu_copy_ := 8192; cpu_pinned_copy_ := 4096; count_ := 2 |}),
        snd (CopyToGpu 4 Demo.rt_refusing_8192 Demo.kernel_two_scratch Demo.buffer1
               Demo.world1))
  /\ exists w2,
       CopyToGpu 4 Demo.rt_refusing_8192 Demo.kernel_two_scratch
         {| gpu_copy_ := 8192; cpu_pinned_copy_ := 4096; count_ := 2 |}
         (snd (CopyToGpu 4 Demo.rt_refusing_8192 Demo.kernel_two_scratch Demo.buffer1
                 Demo.world1))
       = (Returned (StatusOK,
                    {| gpu_copy_ := 16384; cpu_pinned_copy_ := nullptr; count_ := 2 |}), w2)
       /\ deferred_release w2 = [4096]
       /\ pending 3 w2 = [OpMemcpyH2D 16384 4096 8]
       /\ dev_mem w2 !! 8192 = None.
Proof.
  assert (H1 : cpu_pinned_copy_ Demo.buffer1 ≠ nullptr) by (vm_compute; discriminate).
  assert (H2 : CopyToGpu 4 Demo.rt_refusing_8192 Demo.kernel_two_scratch Demo.buffer1
                 Demo.world1
               = (Returned (StatusError ONNXRUNTIME FAIL
                              "CUDA error cudaErrorInvalidValue:invalid argument",
                            {| gpu_copy_ := 8192; cpu_pinned_copy_ := 4096; count_ := 2 |}),
                  snd (CopyToGpu 4 Demo.rt_refusing_8192 Demo.kernel_two_scratch
                         Demo.buffer1 Demo.world1)))
    by (vm_compute; reflexivity).
  set (w1 := snd (CopyToGpu 4 Demo.rt_refusing_8192 Demo.kernel_two_scratch Demo.buffer1
                    Demo.world1)) in *.
  assert (H4 : CopyToGpu 4 Demo.rt_refusing_8192 Demo.kernel_two_scratch
                 {| gpu_copy_ := 8192; cpu_pinned_copy_ := 4096; count_ := 2 |} w1
               = (Returned (StatusOK,
                            {| gpu_copy_ := 16384; cpu_pinned_copy_ := nullptr;
                               count_ := 2 |}),
                  snd (CopyToGpu 4 Demo.rt_refusing_8192 Demo.kernel_two_scratch
                         {| gpu_copy_ := 8192; cpu_pinned_copy_ := 4096; count_ := 2 |} w1)))
    by (vm_compute; reflexivity).
  destruct (CopyToGpu_retry_after_failure 4 Demo.rt_refusing_8192 Demo.kernel_two_scratch
              Demo.buffer1 Demo.world1 _ _ _ _ _ _ H1 H2 eq_refl H4 eq_refl)
    as (Hd & _ & Hq & _ & Hg & _).
  split; [exact H1|]. split; [exact H2|].
  eexists. split; [exact H4|]. split; [exact Hd|]. split; [exact Hq|exact Hg].
Defined.

(** X9: a second allocation for [Demo.buffer1], placed at 20480. *)
Lemma AllocCpuPtr_releases_previous_witness :
  cpu_pinned_copy_ Demo.buffer1 ≠ nullptr
  /\ exists w',
       AllocCpuPtr Demo.kernel_two_scratch Demo.buffer1 5 Demo.world1
       = (Returned {| gpu_copy_ := nullptr; cpu_pinned_copy_ := 20480; count_ := 5 |}, w')
       /\ host_mem w' !! 4096 = None
       /\ host_mem w' !! 20480 = Some [None; None; None; None; None].
Proof.
  assert (H1 : cpu_pinned_copy_ Demo.buffer1 ≠ nullptr) by (vm_compute; discriminate).
  assert (H2 : AllocCpuPtr Demo.kernel_two_scratch Demo.buffer1 5 Demo.world1
               = (Returned {| gpu_copy_ := nullptr; cpu_pinned_copy_ := 20480;
                              count_ := 5 |},
                  snd (AllocCpuPtr Demo.kernel_two_scratch Demo.buffer1 5 Demo.world1)))
    by (vm_compute; reflexivity).
  assert (H3 : CpuPtr {| gpu_copy_ := nullptr; cpu_pinned_copy_ := 20480; count_ := 5 |}
               ≠ cpu_pinned_copy_ Demo.buffer1) by (vm_compute; discriminate).
  destruct (AllocCpuPtr_releases_previous Demo.kernel_two_scratch Demo.buffer1 5
              Demo.world1 _ _ H1 H2 H3) as (_ & Hold & Hnew & _).
  split; [exact H1|]. eexists. split; [exact H2|]. split; [exact Hold|exact Hnew].
Defined.

(** X10: [Demo.buffer1] sent, then staged anew at 20480. *)
Lemma AllocCpuPtr_after_send_keeps_region_witness :
  cpu_pinned_copy_ Demo.buffer1 ≠ nullptr
  /\ exists w' w'',
       CopyToGpu 4 Demo.rt Demo.kernel_two_scratch Demo.buffer1 Demo.world1
       = (Returned (StatusOK, Demo.sent1_buffer), w')
       /\ AllocCpuPtr Demo.kernel_two_scratch Demo.sent1_buffer 5 w'
          = (Returned {| gpu_copy_ := 8192; cpu_pinned_copy_ := 20480; count_ := 5 |}, w'')
       /\ host_mem w'' !! 4096 = Some [Some 8%Z; Some 9%Z]
       /\ deferred_release w'' = [4096].
Proof.
  assert (H1 : cpu_pinned_copy_ Demo.buffer1 ≠ nullptr) by (vm_compute; discriminate).
  assert (H2 : CopyToGpu 4 Demo.rt Demo.kernel_two_scratch Demo.buffer1 Demo.world1
               = (Returned (StatusOK, Demo.sent1_buffer),
                  snd (CopyToGpu 4 Demo.rt Demo.kernel_two_scratch Demo.buffer1
                         Demo.world1)))
    by (vm_compute; reflexivity).
  set (w' := snd (CopyToGpu 4 Demo.rt Demo.kernel_two_scratch Demo.buffer1 Demo.world1))
    in *.
  assert (H4 : AllocCpuPtr Demo.kernel_two_scratch Demo.sent1_buffer 5 w'
               = (Returned {| gpu_copy_ := 8192; cpu_pinned_copy_ := 20480; count_ := 5 |},
                  snd (AllocCpuPtr Demo.kernel_two_scratch Demo.sent1_buffer 5 w')))
    by (vm_compute; reflexivity).
  assert (H5 : CpuPtr {| gpu_copy_ := 8192; cpu_pinned_copy_ := 20480; count_ := 5 |}
               ≠ cpu_pinned_copy_ Demo.buffer1) by (vm_compute; discriminate).
  destruct (AllocCpuPtr_after_send_keeps_region 4 Demo.rt Demo.kernel_two_scratch
              Demo.buffer1 Demo.world1 _ _ _ 5 _ _ H1 H2 eq_refl H4 H5)
    as (Hh & Hd & _).
  split; [exact H1|]. eexists _, _. split; [exact H2|]. split; [exact H4|].
  split; [exact Hh|exact Hd].
Defined.

(** X11: a provider without a CPU allocator. *)
Lemma no_cpu_allocator_constructors_throw_witness :
  GetAllocator (provider_ Demo.kernel_no_allocator) DEFAULT_CPU_ALLOCATOR_DEVICE_ID
    OrtMemTypeCPU = None
  /\ CudaAsyncBuffer_span 4 Demo.kernel_no_allocator [1%Z; 2%Z] Demo.world0
     = (Thrown (std_runtime_error "alloc failed"), Demo.world0).
Proof.
  assert (H1 : GetAllocator (provider_ Demo.kernel_no_allocator)
                 DEFAULT_CPU_ALLOCATOR_DEVICE_ID OrtMemTypeCPU = None) by reflexivity.
  destruct (no_cpu_allocator_constructors_throw 4 Demo.kernel_no_allocator Demo.world0 H1)
    as (_ & _ & _ & Hspan).
  split; [exact H1|]. exact (Hspan [1%Z; 2%Z]).
Defined.
